(** * WorkflowProcessor: a shallow embedding of
      evolving_agents/workflow/workflow_processor.py

    The module holds one class, [WorkflowProcessor], whose coroutine
    [process_workflow] parses a YAML text, reads three metadata fields,
    renders the optional parameters with [json.dumps(params, indent=2)],
    assembles one prompt and awaits [self.agent.run(prompt)].

    Modelling choices.
    - Python values are the inductive type [pyval]: finite trees, a dict
      being an association list in insertion order.  A float stands as the
      text Python prints for it.  A container that holds itself has no
      place in a tree and is outside the model.
    - A Python [str] is a Rocq [string], one [ascii] per character, so the
      model covers the code points 0 to 255.
    - A raised exception is a value [PyExc cls msg]; only instances of
      [Exception] are modelled, which is what [except Exception] catches.
    - A coroutine is modelled by the result of awaiting it: a function from
      a [World] to a [Result] and the [World] afterwards.
    - [yaml.safe_load] (PyYAML) is a parameter of the model: a function from
      the text to a raised exception or a loaded value. *)

From Stdlib Require Import String Ascii List ZArith Bool Arith Lia.
From Stdlib Require Import Numbers.DecimalString.
Import ListNotations.
Local Open Scope list_scope.
Local Open Scope string_scope.

(** ** Characters and strings *)

Module Chars.

Definition nl : ascii := ascii_of_nat 10.
Definition tab : ascii := ascii_of_nat 9.
Definition cr : ascii := ascii_of_nat 13.
Definition dquote : ascii := ascii_of_nat 34.
Definition squote : ascii := ascii_of_nat 39.
Definition bslash : ascii := ascii_of_nat 92.

Definition chr (c : ascii) : string := String c EmptyString.

(** [hex_digit n] is the lower-case hexadecimal digit of [n < 16]. *)
Definition hex_digit (n : nat) : ascii :=
  match n with
  | 0 => "0" | 1 => "1" | 2 => "2" | 3 => "3" | 4 => "4"
  | 5 => "5" | 6 => "6" | 7 => "7" | 8 => "8" | 9 => "9"
  | 10 => "a" | 11 => "b" | 12 => "c" | 13 => "d" | 14 => "e"
  | _ => "f"
  end%char.

(** Two hexadecimal digits of a code point below 256. *)
Definition hex2 (n : nat) : string :=
  String (hex_digit (n / 16)) (String (hex_digit (n mod 16)) EmptyString).

(** [s * n] on a Python string. *)
Fixpoint repeat_string (s : string) (n : nat) : string :=
  match n with
  | O => EmptyString
  | S k => s ++ repeat_string s k
  end.

(** Replace every character [c] of [s] by [f c] and concatenate. *)
Fixpoint flat_map_string (f : ascii -> string) (s : string) : string :=
  match s with
  | EmptyString => EmptyString
  | String c r => f c ++ flat_map_string f r
  end.

(** [c in s]. *)
Fixpoint has_char (c : ascii) (s : string) : bool :=
  match s with
  | EmptyString => false
  | String d r => Ascii.eqb c d || has_char c r
  end.

(** [needle in hay] on strings: [needle] occurs as a contiguous block. *)
Definition Contains (needle hay : string) : Prop :=
  exists pre post, hay = pre ++ needle ++ post.

(** The same test as a program: [needle] is a prefix of some suffix. *)
Fixpoint containsb (needle hay : string) : bool :=
  String.prefix needle hay ||
  match hay with
  | EmptyString => false
  | String _ r => containsb needle r
  end.

End Chars.
Import Chars.

(** ** Python values *)

Set Warnings "-register-all".

(** The characters [float.__repr__] uses for a finite float. *)
Inductive float_char : Type :=
| F0 | F1 | F2 | F3 | F4 | F5 | F6 | F7 | F8 | F9
| FDot | FExp | FPlus | FMinus.

Definition float_char_ascii (c : float_char) : ascii :=
  match c with
  | F0 => "0" | F1 => "1" | F2 => "2" | F3 => "3" | F4 => "4"
  | F5 => "5" | F6 => "6" | F7 => "7" | F8 => "8" | F9 => "9"
  | FDot => "." | FExp => "e" | FPlus => "+" | FMinus => "-"
  end%char.

(** A float: a finite one stands as the text [float.__repr__] prints for it
    (1.5, -0.0, 1e+22, 1e-05), the others are nan and the two infinities. *)
Inductive pyfloat : Type :=
| FFinite (repr : list float_char)
| FNan
| FInf (negative : bool).

(** A value is a finite tree: a list, tuple or dict that holds itself,
    directly or through its items, cannot be written.  Where only
    json.dumps looks at a value, an instance of a subclass of one of the
    classes below is written as an instance of that class, as the encoder
    treats both alike. *)
Inductive pyval : Type :=
| PyNone
| PyBool (b : bool)
| PyInt (z : Z)
| PyFloat (f : pyfloat)
| PyStr (s : string)
| PyList (l : list pyval)
| PyTuple (l : list pyval)
| PyDict (d : list (pyval * pyval))
  (** An object of any other class (set, bytes, datetime.date, a user
      class that derives from none of the classes above): its class name,
      its str() text and its repr() text.  Such an object has no attribute
      [get] and is not JSON-encodable. *)
| PyOther (cls : string) (str_text : string) (repr_text : string).

Definition pydict : Type := list (pyval * pyval).

(** A raised exception: class name and str(e). *)
Inductive py_exception : Type :=
| PyExc (cls : string) (msg : string).

Definition exc_str (e : py_exception) : string :=
  match e with PyExc _ msg => msg end.

Definition AttributeError (msg : string) : py_exception :=
  PyExc "AttributeError" msg.
Definition TypeError (msg : string) : py_exception :=
  PyExc "TypeError" msg.

(** The result of evaluating an expression: a value or a raised exception. *)
Inductive Result (A : Type) : Type :=
| Return (a : A)
| Raise (e : py_exception).
Arguments Return {A} a.
Arguments Raise {A} e.

Definition rbind {A B : Type} (r : Result A) (k : A -> Result B) : Result B :=
  match r with
  | Return a => k a
  | Raise e => Raise e
  end.

(** Evaluate a list of expressions left to right; the first raise wins. *)
Fixpoint rsequence {A : Type} (l : list (Result A)) : Result (list A) :=
  match l with
  | [] => Return []
  | r :: rest =>
      rbind r (fun a => rbind (rsequence rest) (fun t => Return (a :: t)))
  end.

Module PyBuiltins.

(** [type(v).__name__]. *)
Definition type_name (v : pyval) : string :=
  match v with
  | PyNone => "NoneType"
  | PyBool _ => "bool"
  | PyInt _ => "int"
  | PyFloat _ => "float"
  | PyStr _ => "str"
  | PyList _ => "list"
  | PyTuple _ => "tuple"
  | PyDict _ => "dict"
  | PyOther cls _ _ => cls
  end.

(** [int.__repr__]: decimal digits, with a minus sign when negative. *)
Definition int_repr (z : Z) : string :=
  NilZero.string_of_int (Z.to_int z).

(** The text of a finite float. *)
Definition float_text (t : list float_char) : string :=
  string_of_list_ascii (map float_char_ascii t).

(** [float.__repr__]. *)
Definition float_repr (f : pyfloat) : string :=
  match f with
  | FFinite t => float_text t
  | FNan => "nan"
  | FInf false => "inf"
  | FInf true => "-inf"
  end.

(** Characters of the range 128 to 255 that [str.isprintable] rejects:
    the C1 controls, the no-break space and the soft hyphen. *)
Definition latin1_unprintable (n : nat) : bool :=
  ((n <=? 160) || (n =? 173))%nat.

Definition repr_char (quote : ascii) (c : ascii) : string :=
  let n := nat_of_ascii c in
  if Ascii.eqb c quote || Ascii.eqb c bslash then String bslash (chr c)
  else if Ascii.eqb c tab then String bslash "t"
  else if Ascii.eqb c nl then String bslash "n"
  else if Ascii.eqb c cr then String bslash "r"
  else if ((n <? 32) || (n =? 127))%nat then String bslash ("x" ++ hex2 n)
  else if (n <? 127)%nat then chr c
  else if latin1_unprintable n then String bslash ("x" ++ hex2 n)
  else chr c.

(** [repr] of a str: single quotes unless the text has a single quote and
    no double quote. *)
Definition str_repr (s : string) : string :=
  let quote :=
    if has_char squote s && negb (has_char dquote s) then dquote else squote in
  String quote (flat_map_string (repr_char quote) s) ++ chr quote.

Fixpoint py_repr (v : pyval) : string :=
  match v with
  | PyNone => "None"
  | PyBool true => "True"
  | PyBool false => "False"
  | PyInt z => int_repr z
  | PyFloat f => float_repr f
  | PyStr s => str_repr s
  | PyList l => "[" ++ String.concat ", " (map py_repr l) ++ "]"
  | PyTuple l =>
      match l with
      | [x] => "(" ++ py_repr x ++ ",)"
      | _ => "(" ++ String.concat ", " (map py_repr l) ++ ")"
      end
  | PyDict d =>
      "{" ++ String.concat ", "
               (map (fun kv => py_repr (fst kv) ++ ": " ++ py_repr (snd kv)) d)
          ++ "}"
  | PyOther _ _ r => r
  end.

(** [str(v)], which is also what an f-string field [{v}] inserts. *)
Definition py_str (v : pyval) : string :=
  match v with
  | PyStr s => s
  | PyOther _ s _ => s
  | _ => py_repr v
  end.

(** Equality of a dict key with a str key: only a str key can be equal. *)
Definition key_is (k : string) (key : pyval) : bool :=
  match key with
  | PyStr s => String.eqb s k
  | _ => false
  end.

(** [dict.get(k, default)] for a str key [k]. *)
Fixpoint dict_get (d : pydict) (k : string) (default : pyval) : pyval :=
  match d with
  | [] => default
  | (key, v) :: rest => if key_is k key then v else dict_get rest k default
  end.

(** [k in d] for a str key [k]. *)
Definition dict_has (d : pydict) (k : string) : bool :=
  existsb (fun kv => key_is k (fst kv)) d.

(** The method call [o.get(k, default)]: only a dict has the attribute. *)
Definition py_get (o : pyval) (k : string) (default : pyval) : Result pyval :=
  match o with
  | PyDict d => Return (dict_get d k default)
  | _ => Raise (AttributeError
                  ("'" ++ type_name o ++ "' object has no attribute 'get'"))
  end.

End PyBuiltins.
Import PyBuiltins.

(** ** json.dumps(obj, indent=2)

    The encoder of the standard library with its default options apart from
    [indent]: [ensure_ascii=True], [skipkeys=False], no [default] hook, item
    separator [","] and key separator [": "]. *)

Module Json.

(** The replacement of one character by [py_encode_basestring_ascii]:
    backslash, the double quote and every character outside the range
    space to tilde are escaped. *)
Definition escape_char (c : ascii) : string :=
  let n := nat_of_ascii c in
  if Ascii.eqb c bslash then String bslash (chr bslash)
  else if Ascii.eqb c dquote then String bslash (chr dquote)
  else if (n =? 8)%nat then String bslash "b"
  else if (n =? 12)%nat then String bslash "f"
  else if Ascii.eqb c nl then String bslash "n"
  else if Ascii.eqb c cr then String bslash "r"
  else if Ascii.eqb c tab then String bslash "t"
  else if ((n <? 32) || (126 <? n))%nat then String bslash ("u00" ++ hex2 n)
  else chr c.

Definition py_encode_basestring_ascii (s : string) : string :=
  String dquote (flat_map_string escape_char s) ++ chr dquote.

(** The encoder's [floatstr] with [allow_nan=True]: [float.__repr__] for a
    finite float, and the JavaScript names otherwise. *)
Definition floatstr (f : pyfloat) : string :=
  match f with
  | FFinite t => float_text t
  | FNan => "NaN"
  | FInf false => "Infinity"
  | FInf true => "-Infinity"
  end.

(** The text a dict key is turned into before it is encoded as a string. *)
Definition json_key (key : pyval) : Result string :=
  match key with
  | PyStr s => Return s
  | PyFloat f => Return (floatstr f)
  | PyBool true => Return "true"
  | PyBool false => Return "false"
  | PyNone => Return "null"
  | PyInt z => Return (int_repr z)
  | _ => Raise (TypeError
                  ("keys must be str, int, float, bool or None, not "
                     ++ type_name key))
  end.

(** A line break followed by two spaces per nesting level. *)
Definition newline_indent (level : nat) : string :=
  String nl (repeat_string "  " level).

(** The text between the brackets of a non-empty list or dict whose opening
    bracket stands at nesting level [level]. *)
Definition indented_block (level : nat) (chunks : list string) : string :=
  newline_indent (S level)
    ++ String.concat ("," ++ newline_indent (S level)) chunks
    ++ newline_indent level.

(** One [key: value] line of a dict. *)
Definition dict_item (k v : string) : string :=
  py_encode_basestring_ascii k ++ ": " ++ v.

Fixpoint iterencode (level : nat) (o : pyval) : Result string :=
  match o with
  | PyStr s => Return (py_encode_basestring_ascii s)
  | PyNone => Return "null"
  | PyBool true => Return "true"
  | PyBool false => Return "false"
  | PyInt z => Return (int_repr z)
  | PyFloat f => Return (floatstr f)
  | PyList l =>
      match l with
      | [] => Return "[]"
      | _ :: _ =>
          rbind (rsequence (map (iterencode (S level)) l)) (fun chunks =>
          Return ("[" ++ indented_block level chunks ++ "]"))
      end
  | PyTuple l =>
      match l with
      | [] => Return "[]"
      | _ :: _ =>
          rbind (rsequence (map (iterencode (S level)) l)) (fun chunks =>
          Return ("[" ++ indented_block level chunks ++ "]"))
      end
  | PyDict d =>
      match d with
      | [] => Return "{}"
      | _ :: _ =>
          rbind (rsequence
                   (map (fun kv =>
                           rbind (json_key (fst kv)) (fun k =>
                           rbind (iterencode (S level) (snd kv)) (fun v =>
                           Return (dict_item k v)))) d)) (fun chunks =>
          Return ("{" ++ indented_block level chunks ++ "}"))
      end
  | PyOther cls _ _ =>
      Raise (TypeError
               ("Object of type " ++ cls ++ " is not JSON serializable"))
  end.

Definition dumps (obj : pyval) : Result string := iterencode 0 obj.

End Json.

(** ** The processor *)

Section Model.

(** The state the execution backend keeps between calls. *)
Variable BackendState : Type.

(** The attribute path [response.result.text] of what [run] returns. *)
Record RunResult : Type := { text : pyval }.
Record AgentResponse : Type := { result : RunResult }.

(** [IAgent] is declared in evolving_agents.core.base; the processor uses
    its coroutine [run] only.  Awaiting [run(prompt)] returns a response or
    raises, and may change the backend's own state.  An agent object is
    truthy. *)
Record IAgent : Type := {
  run : BackendState -> string -> Result AgentResponse * BackendState
}.

(** The instance attributes of a [WorkflowProcessor]. *)
Record WorkflowProcessor : Type := { agent : option IAgent }.

Inductive log_level : Type := INFO | ERROR.

(** What a call can read and change: the processor object, the backend's
    state, the prompts passed to [run] so far (oldest first) and the
    records handed to the module's logger (oldest first). *)
Record World : Type := {
  self : WorkflowProcessor;
  backend : BackendState;
  sent : list string;
  log : list (log_level * string)
}.

(** A computation: runs in a world, returns or raises, leaves a world. *)
Definition M (A : Type) : Type := World -> Result A * World.

Definition ret {A : Type} (a : A) : M A := fun w => (Return a, w).

Definition bind {A B : Type} (m : M A) (k : A -> M B) : M B :=
  fun w =>
    match m w with
    | (Return a, w') => k a w'
    | (Raise e, w') => (Raise e, w')
    end.

(** An expression without effect on the world. *)
Definition lift {A : Type} (r : Result A) : M A := fun w => (r, w).

Definition get_self_agent : M (option IAgent) :=
  fun w => (Return (agent (self w)), w).

Definition set_self_agent (a : option IAgent) : M unit :=
  fun w => (Return tt,
            {| self := {| agent := a |}; backend := backend w;
               sent := sent w; log := log w |}).

Definition logger (lvl : log_level) (msg : string) : M unit :=
  fun w => (Return tt,
            {| self := self w; backend := backend w; sent := sent w;
               log := (log w ++ [(lvl, msg)])%list |}).

(** [await a.run(prompt)]. *)
Definition await_run (a : IAgent) (prompt : string) : M AgentResponse :=
  fun w =>
    let (r, s) := run a (backend w) prompt in
    (r, {| self := self w; backend := s;
           sent := (sent w ++ [prompt])%list; log := log w |}).

End Model.

Arguments run {BackendState} i s prompt.
Arguments agent {BackendState} w.
Arguments self {BackendState} w.
Arguments backend {BackendState} w.
Arguments sent {BackendState} w.
Arguments log {BackendState} w.
Arguments ret {BackendState A} a w.
Arguments bind {BackendState A B} m k w.
Arguments lift {BackendState A} r w.
Arguments get_self_agent {BackendState} w.
Arguments set_self_agent {BackendState} a w.
Arguments logger {BackendState} lvl msg w.
Arguments await_run {BackendState} a prompt w.

Declare Scope py_scope.
Delimit Scope py_scope with py.
Notation "x <- m ;; k" := (bind m (fun x => k))
  (at level 61, m at next level, right associativity) : py_scope.
Notation "m ;; k" := (bind m (fun _ => k))
  (at level 61, right associativity) : py_scope.

Local Open Scope py_scope.

Section Processor.

Variable BackendState : Type.

(** [yaml.safe_load]: the loaded value, or the exception the parser raises
    on this text. *)
Variable yaml_safe_load : string -> Result pyval.

(** [__init__(self, agent=None)]. *)
Definition init (a : option (IAgent BackendState)) : M BackendState unit :=
  set_self_agent a ;;
  logger INFO "Workflow Processor initialized".

(** [set_agent(self, agent)]. *)
Definition set_agent (a : IAgent BackendState) : M BackendState unit :=
  set_self_agent (Some a).

(** The three [workflow.get(...)] calls under the comment
    [# Extract metadata]: scenario_name, domain, disclaimers. *)
Definition extract_metadata (workflow : pyval)
  : Result (pyval * pyval * pyval) :=
  rbind (py_get workflow "scenario_name" (PyStr "Unnamed Scenario"))
    (fun scenario_name =>
  rbind (py_get workflow "domain" (PyStr "general")) (fun domain =>
  rbind (py_get workflow "additional_disclaimers" (PyList []))
    (fun disclaimers =>
  Return (scenario_name, domain, disclaimers)))).

(** [params_section]: the empty string, replaced when [if params:] holds
    (a dict that is given and not empty) by a heading and the JSON text. *)
Definition render_params_section (params : option pydict) : Result string :=
  match params with
  | None => Return ""
  | Some [] => Return ""
  | Some (kv :: rest) =>
      rbind (Json.dumps (PyDict (kv :: rest))) (fun j =>
      Return (chr nl ++ "Parameters:" ++ chr nl ++ j))
  end.

(** The eight spaces that start every line of the prompt template. *)
Definition ind : string := "        ".

(** The f-string assigned to [prompt], line by line. *)
Definition build_prompt (domain : pyval) (params_section workflow_yaml : string)
  : string :=
  chr nl
  ++ ind ++ "I need to process this workflow YAML for domain '"
         ++ py_str domain ++ "'" ++ params_section ++ ":" ++ chr nl
  ++ ind ++ chr nl
  ++ ind ++ "```yaml" ++ chr nl
  ++ ind ++ workflow_yaml ++ chr nl
  ++ ind ++ "```" ++ chr nl
  ++ ind ++ chr nl
  ++ ind ++ "Please execute this workflow step by step and provide the results for each step." ++ chr nl
  ++ ind ++ "For each step, indicate the step type, what action was performed, and the outcome." ++ chr nl
  ++ ind ++ chr nl
  ++ ind ++ "When executing tools or agents, show the input and output for each execution." ++ chr nl
  ++ ind ++ "When you see placeholders like {params.some_variable}, replace them with the corresponding value from the parameters." ++ chr nl
  ++ ind.

Definition no_agent_outcome : pydict :=
  [ (PyStr "status", PyStr "error");
    (PyStr "message", PyStr "No agent set for workflow processing") ].

Definition parse_error_message (e : py_exception) : string :=
  "Error parsing workflow YAML: " ++ exc_str e.

Definition parse_error_outcome (e : py_exception) : pydict :=
  [ (PyStr "status", PyStr "error");
    (PyStr "message", PyStr (parse_error_message e)) ].

Definition success_message (scenario_name : pyval) : string :=
  "Successfully executed workflow '" ++ py_str scenario_name
    ++ "' using agent".

Definition success_outcome (scenario_name domain : pyval)
  (response : AgentResponse) : pydict :=
  [ (PyStr "status", PyStr "success");
    (PyStr "scenario_name", scenario_name);
    (PyStr "domain", domain);
    (PyStr "result", text (result response));
    (PyStr "message", PyStr (success_message scenario_name)) ].

(** [self.agent.run(prompt)], awaited: the attribute is read again. *)
Definition call_agent (prompt : string) : M BackendState AgentResponse :=
  a <- get_self_agent ;;
  match a with
  | None =>
      lift (Raise (AttributeError
                     "'NoneType' object has no attribute 'run'"))
  | Some the_agent => await_run the_agent prompt
  end.

(** [process_workflow(self, workflow_yaml, params=None)], awaited. *)
Definition process_workflow (workflow_yaml : string) (params : option pydict)
  : M BackendState pydict :=
  a <- get_self_agent ;;
  match a with
  | None => ret no_agent_outcome
  | Some _ =>
      logger INFO "Processing workflow" ;;
      match yaml_safe_load workflow_yaml with
      | Raise e =>
          let error := parse_error_message e in
          logger ERROR error ;;
          ret (parse_error_outcome e)
      | Return workflow =>
          md <- lift (extract_metadata workflow) ;;
          let '(scenario_name, domain, disclaimers) := md in
          logger INFO ("Executing scenario: " ++ py_str scenario_name
                         ++ " in domain: " ++ py_str domain) ;;
          params_section <- lift (render_params_section params) ;;
          let prompt := build_prompt domain params_section workflow_yaml in
          response <- call_agent prompt ;;
          ret (success_outcome scenario_name domain response)
      end
  end.

(** *** The sections of the prompt *)

Definition domain_statement (domain : pyval) : string :=
  chr nl ++ ind ++ "I need to process this workflow YAML for domain '"
    ++ py_str domain ++ "'".

(** The colon that ends the first line, a blank line and the opening fence. *)
Definition fence_open : string :=
  ":" ++ chr nl ++ ind ++ chr nl ++ ind ++ "```yaml" ++ chr nl ++ ind.

Definition fence_close : string :=
  chr nl ++ ind ++ "```" ++ chr nl.

Definition fenced_document (workflow_yaml : string) : string :=
  fence_open ++ workflow_yaml ++ fence_close.

Definition step_directives : string :=
  ind ++ chr nl
  ++ ind ++ "Please execute this workflow step by step and provide the results for each step." ++ chr nl
  ++ ind ++ "For each step, indicate the step type, what action was performed, and the outcome." ++ chr nl
  ++ ind ++ chr nl
  ++ ind ++ "When executing tools or agents, show the input and output for each execution." ++ chr nl.

Definition placeholder_directive : string :=
  ind ++ "When you see placeholders like {params.some_variable}, replace them with the corresponding value from the parameters." ++ chr nl
  ++ ind.

(** *** Reading an outcome *)

(** [outcome[k]] when the key is there. *)
Definition outcome_field (o : pydict) (k : string) : option pyval :=
  if dict_has o k then Some (dict_get o k PyNone) else None.

(** The backend answers a prompt the same way in every state. *)
Definition deterministic_agent (a : IAgent BackendState) : Prop :=
  forall s1 s2 prompt, fst (run a s1 prompt) = fst (run a s2 prompt).

(** No str key [k] in the dict. *)
Definition lacks (d : pydict) (k : string) : Prop :=
  dict_has d k = false.

(** *** Worlds and values met along a run *)

(** The world once [records] have been handed to the logger. *)
Definition logged (w : World BackendState)
  (records : list (log_level * string)) : World BackendState :=
  {| self := self w; backend := backend w; sent := sent w;
     log := (log w ++ records)%list |}.

(** The world once [prompt] has been passed to [run], which left the backend
    in state [s]. *)
Definition prompted (w : World BackendState) (prompt : string)
  (s : BackendState) : World BackendState :=
  {| self := self w; backend := s; sent := (sent w ++ [prompt])%list;
     log := log w |}.

Definition scenario_name_of (d : pydict) : pyval :=
  dict_get d "scenario_name" (PyStr "Unnamed Scenario").

Definition domain_of (d : pydict) : pyval :=
  dict_get d "domain" (PyStr "general").

Definition disclaimers_of (d : pydict) : pyval :=
  dict_get d "additional_disclaimers" (PyList []).

(** The record logged before the prompt is built. *)
Definition executing_record (d : pydict) : log_level * string :=
  (INFO, "Executing scenario: " ++ py_str (scenario_name_of d)
           ++ " in domain: " ++ py_str (domain_of d)).

End Processor.

Arguments logged {BackendState} w records.
Arguments prompted {BackendState} w prompt s.

Arguments init {BackendState} a w.
Arguments set_agent {BackendState} a w.
Arguments call_agent {BackendState} prompt w.
Arguments process_workflow {BackendState} yaml_safe_load workflow_yaml params w.
Arguments deterministic_agent {BackendState} a.

(** ** Sample documents, backends and worlds *)

Module Samples.

Definition doc_refund : string :=
  "scenario_name: Refund" ++ chr nl ++ "domain: finance".

Definition doc_steps_only : string := "steps: []".

Definition doc_empty : string := "".

Definition doc_list : string := "- a".

Definition doc_scalar : string := "42".

Definition doc_unclosed : string := "a: [".

(** What PyYAML reports on [doc_unclosed]. *)
Definition unclosed_diagnostic : string :=
  "while parsing a flow node" ++ chr nl
  ++ "expected the node content, but found '<stream end>'" ++ chr nl
  ++ "  in " ++ chr dquote ++ "<unicode string>" ++ chr dquote
  ++ ", line 1, column 5:" ++ chr nl
  ++ "    a: [" ++ chr nl
  ++ "        ^".

(** The results of [yaml.safe_load] on the sample documents, as a table.
    No other text is used below; the last line makes the table total. *)
Definition sample_safe_load (doc : string) : Result pyval :=
  if String.eqb doc doc_refund then
    Return (PyDict [ (PyStr "scenario_name", PyStr "Refund");
                     (PyStr "domain", PyStr "finance") ])
  else if String.eqb doc doc_steps_only then
    Return (PyDict [ (PyStr "steps", PyList []) ])
  else if String.eqb doc doc_empty then Return PyNone
  else if String.eqb doc doc_list then Return (PyList [PyStr "a"])
  else if String.eqb doc doc_scalar then Return (PyInt 42)
  else if String.eqb doc doc_unclosed then
    Raise (PyExc "yaml.parser.ParserError" unclosed_diagnostic)
  else Raise (PyExc "yaml.YAMLError" "text outside the sample table").

(** A backend that answers every prompt with the text done. *)
Definition echo_done : IAgent nat :=
  {| run := fun s _ => (Return {| result := {| text := PyStr "done" |} |}, s) |}.

(** A backend whose [run] raises. *)
Definition failing_agent : IAgent nat :=
  {| run := fun s _ => (Raise (PyExc "RuntimeError" "backend unavailable"), s) |}.

(** A backend that answers with the number of calls made before. *)
Definition counting_agent : IAgent nat :=
  {| run := fun s _ =>
              (Return {| result := {| text := PyInt (Z.of_nat s) |} |}, S s) |}.

Definition world_of (a : option (IAgent nat)) : World nat :=
  {| self := {| agent := a |}; backend := 0; sent := []; log := [] |}.

(** A world in which the processor has the backend [a] bound. *)
Definition bound (a : IAgent nat) : World nat := world_of (Some a).

Definition params_amount : option pydict :=
  Some [ (PyStr "amount", PyInt 50) ].

(** A parameter whose value is a set. *)
Definition params_with_set : option pydict :=
  Some [ (PyStr "amount", PyInt 50);
         (PyStr "tags", PyOther "set" "{'a'}" "{'a'}") ].

End Samples.

(** ** Definitions for the further properties *)

Module Shape.

(** A key that [json.dumps] accepts: str, int, float, bool or None. *)
Definition json_key_ok (key : pyval) : bool :=
  match key with
  | PyStr _ | PyBool _ | PyNone | PyInt _ | PyFloat _ => true
  | _ => false
  end.

(** A value that [json.dumps] accepts: no object of another class in it,
    and only acceptable keys in its dicts. *)
Fixpoint json_encodable (v : pyval) : bool :=
  match v with
  | PyList l => forallb json_encodable l
  | PyTuple l => forallb json_encodable l
  | PyDict d =>
      forallb (fun kv => json_key_ok (fst kv) && json_encodable (snd kv)) d
  | PyOther _ _ _ => false
  | _ => true
  end.

(** The parameters the call can render: none, or a dict that is empty or
    encodable. *)
Definition params_encodable (params : option pydict) : bool :=
  match params with
  | None => true
  | Some d => json_encodable (PyDict d)
  end.

(** Every character of [s] passes the test [p]. *)
Fixpoint all_chars (p : ascii -> bool) (s : string) : bool :=
  match s with
  | EmptyString => true
  | String c r => p c && all_chars p r
  end.

(** A line break or a printable ASCII character (space to tilde). *)
Definition plain_char (c : ascii) : bool :=
  let n := nat_of_ascii c in
  ((n =? 10) || ((32 <=? n) && (n <=? 126)))%nat.

(** The keys of a dict, in insertion order. *)
Definition dict_keys (d : pydict) : list pyval := map fst d.

(** The first binding of the str key [k] in [d] is [v]. *)
Definition first_binding (d : pydict) (k : string) (v : pyval) : Prop :=
  exists before after,
    d = (before ++ (PyStr k, v) :: after)%list /\ dict_has before k = false.

End Shape.
Import Shape.

Module MoreSamples.
Import Samples.

(** A document whose scenario_name is present with a null value. *)
Definition doc_null_name : string := "scenario_name:".

(** The sample table with one more row. *)
Definition sample_safe_load_more (doc : string) : Result pyval :=
  if String.eqb doc doc_null_name then
    Return (PyDict [ (PyStr "scenario_name", PyNone) ])
  else sample_safe_load doc.

(** A loader that gives the Refund document two more fields. *)
Definition sample_safe_load_wide (doc : string) : Result pyval :=
  if String.eqb doc doc_refund then
    Return (PyDict [ (PyStr "additional_disclaimers", PyList [PyStr "none"]);
                     (PyStr "scenario_name", PyStr "Refund");
                     (PyStr "steps", PyList []);
                     (PyStr "domain", PyStr "finance") ])
  else sample_safe_load doc.

(** Parameters with a float key whose value is a tuple holding a float. *)
Definition params_float_tuple : option pydict :=
  Some [ (PyFloat (FFinite [F1; FDot; F5]),
          PyTuple [ PyInt 1; PyFloat (FFinite [F2; FDot; F5]) ]) ].

(** Parameters with a control character and a character above 127. *)
Definition params_odd_text : option pydict :=
  Some [ (PyStr ("caf" ++ chr (ascii_of_nat 233)),
          PyList [ PyStr (chr tab ++ "x"); PyInt (-7); PyNone ]) ].

End MoreSamples.


(** ** Facts about strings, lists of results and dicts *)

Module StringFacts.

Lemma append_assoc (a b c : string) : (a ++ b) ++ c = a ++ b ++ c.
Proof.
  induction a as [| x a IH]; cbn; [reflexivity | now rewrite IH].
Qed.

Lemma append_nil_r (s : string) : s ++ "" = s.
Proof.
  induction s as [| x s IH]; cbn; [reflexivity | now rewrite IH].
Qed.

Lemma Contains_refl (s : string) : Contains s s.
Proof.
  exists "", "". cbn. now rewrite append_nil_r.
Qed.

Lemma Contains_prefix (n rest : string) : Contains n (n ++ rest).
Proof.
  exists "", rest. reflexivity.
Qed.

Lemma Contains_append_l (n h x : string) :
  Contains n h -> Contains n (x ++ h).
Proof.
  intros (pre & post & ->). exists (x ++ pre), post.
  now rewrite append_assoc.
Qed.

Lemma Contains_append_r (n h x : string) :
  Contains n h -> Contains n (h ++ x).
Proof.
  intros (pre & post & ->). exists pre, (post ++ x).
  now rewrite !append_assoc.
Qed.

Lemma Contains_trans (a b c : string) :
  Contains a b -> Contains b c -> Contains a c.
Proof.
  intros (p1 & q1 & ->) (p2 & q2 & ->).
  exists (p2 ++ p1), (q1 ++ q2). now rewrite !append_assoc.
Qed.

(** Every element of a joined list, together with the text [p] that the
    separator ends with, occurs in [p] followed by the joined text. *)
Lemma Contains_concat_led (p s x : string) (l : list string) :
  In x l -> Contains (p ++ x) (p ++ String.concat (s ++ p) l).
Proof.
  induction l as [| y l IH]; [contradiction |].
  intros [-> | Hin].
  - destruct l as [| z l]; cbn [String.concat].
    + apply Contains_refl.
    + rewrite <- append_assoc. apply Contains_prefix.
  - destruct l as [| z l]; [contradiction |].
    change (String.concat (s ++ p) (y :: z :: l))
      with (y ++ (s ++ p) ++ String.concat (s ++ p) (z :: l)).
    replace (p ++ y ++ (s ++ p) ++ String.concat (s ++ p) (z :: l))
      with ((p ++ y ++ s) ++ p ++ String.concat (s ++ p) (z :: l))
      by now rewrite !append_assoc.
    apply Contains_append_l, IH, Hin.
Qed.

Lemma prefix_split (n h : string) :
  String.prefix n h = true -> exists rest, h = n ++ rest.
Proof.
  revert n. induction h as [| c h IH]; intros [| d n] H; cbn in H.
  - now exists "".
  - discriminate.
  - now exists (String c h).
  - destruct (ascii_dec d c) as [-> | _]; [| discriminate].
    destruct (IH n H) as (rest & ->). now exists rest.
Qed.

Lemma containsb_sound (n h : string) :
  containsb n h = true -> Contains n h.
Proof.
  induction h as [| c h IH]; cbn [containsb]; intros H;
    apply orb_true_iff in H as [H | H].
  - destruct (prefix_split _ _ H) as (rest & ->). apply Contains_prefix.
  - discriminate.
  - destruct (prefix_split _ _ H) as (rest & ->). apply Contains_prefix.
  - destruct (IH H) as (pre & post & ->). exists (String c pre), post.
    reflexivity.
Qed.

End StringFacts.

Section ResultFacts.

Context {A B : Type}.

(** When a sequence of evaluations returns, every one of them returned and
    its value is in the list. *)
Lemma rsequence_map_In (f : A -> Result B) (l : list A) (out : list B) :
  rsequence (map f l) = Return out ->
  forall x, In x l -> exists y, f x = Return y /\ In y out.
Proof.
  revert out. induction l as [| a l IH]; intros out H x Hin; [contradiction |].
  cbn [map rsequence] in H.
  destruct (f a) as [b | e] eqn:Hfa; cbn [rbind] in H; [| discriminate].
  destruct (rsequence (map f l)) as [t | e] eqn:Hrest; cbn [rbind] in H;
    [| discriminate].
  injection H as <-.
  destruct Hin as [-> | Hin].
  - exists b. split; [assumption | now left].
  - destruct (IH t eq_refl x Hin) as (y & Hy & Hyin).
    exists y. split; [assumption | now right].
Qed.

End ResultFacts.

Section DictFacts.

Lemma dict_get_lacks (d : pydict) (k : string) (default : pyval) :
  dict_has d k = false -> dict_get d k default = default.
Proof.
  induction d as [| [key v] d IH]; cbn [dict_has existsb dict_get fst];
    [reflexivity |].
  intros H. apply orb_false_iff in H as [Hk Hd].
  rewrite Hk. apply IH, Hd.
Qed.

End DictFacts.

Module JsonFacts.
Import Json StringFacts.

(** The JSON text of a dict shows every key on a line of its own, indented
    by two spaces and followed by a colon and a space. *)
Lemma dumps_dict_keys (d : pydict) (j : string) :
  dumps (PyDict d) = Return j ->
  forall k v, In (k, v) d ->
    exists ks, json_key k = Return ks /\
      Contains (newline_indent 1 ++ py_encode_basestring_ascii ks ++ ": ") j.
Proof.
  intros H k v Hin.
  destruct d as [| kv0 d0]; [contradiction |].
  unfold dumps in H. cbn [iterencode] in H.
  set (d := kv0 :: d0) in *.
  match type of H with
  | rbind (rsequence (map ?f d)) _ = _ =>
      destruct (rsequence (map f d)) as [chunks | e] eqn:Hseq;
        cbn [rbind] in H; [| discriminate];
        destruct (rsequence_map_In f d chunks Hseq (k, v) Hin)
          as (item & Hitem & Hitem_in)
  end.
  assert (Hj : j = "{" ++ indented_block 0 chunks ++ "}") by congruence.
  clear H. subst j.
  cbn [fst snd] in Hitem.
  destruct (json_key k) as [ks | e] eqn:Hk; cbn [rbind] in Hitem;
    [| discriminate].
  destruct (iterencode 1 v) as [vs | e]; cbn [rbind] in Hitem;
    [| discriminate].
  assert (Hi : item = dict_item ks vs) by congruence.
  clear Hitem. subst item.
  exists ks. split; [reflexivity |].
  apply Contains_append_l. apply Contains_append_r.
  unfold indented_block.
  rewrite <- (append_assoc (newline_indent 1) _ (newline_indent 0)).
  apply Contains_append_r.
  eapply Contains_trans;
    [| apply (Contains_concat_led (newline_indent 1) "," _ chunks Hitem_in)].
  unfold dict_item. rewrite <- !append_assoc. apply Contains_prefix.
Qed.

End JsonFacts.

(** ** Induction on Python values and facts about the encoder *)

Section PyvalInduction.

Variable P : pyval -> Prop.

Hypothesis HNone : P PyNone.
Hypothesis HBool : forall b, P (PyBool b).
Hypothesis HInt : forall z, P (PyInt z).
Hypothesis HFloat : forall f, P (PyFloat f).
Hypothesis HStr : forall s, P (PyStr s).
Hypothesis HList : forall l, Forall P l -> P (PyList l).
Hypothesis HTuple : forall l, Forall P l -> P (PyTuple l).
Hypothesis HDict :
  forall d, Forall (fun kv => P (fst kv) /\ P (snd kv)) d -> P (PyDict d).
Hypothesis HOther : forall cls s r, P (PyOther cls s r).

(** Induction that reaches the elements of lists and the keys and values of
    dicts. *)
Fixpoint pyval_nested_ind (v : pyval) : P v :=
  match v with
  | PyNone => HNone
  | PyBool b => HBool b
  | PyInt z => HInt z
  | PyFloat f => HFloat f
  | PyStr s => HStr s
  | PyList l =>
      HList l
        ((fix elems (l : list pyval) : Forall P l :=
            match l with
            | [] => Forall_nil P
            | x :: r => Forall_cons x (pyval_nested_ind x) (elems r)
            end) l)
  | PyTuple l =>
      HTuple l
        ((fix elems (l : list pyval) : Forall P l :=
            match l with
            | [] => Forall_nil P
            | x :: r => Forall_cons x (pyval_nested_ind x) (elems r)
            end) l)
  | PyDict d =>
      HDict d
        ((fix items (d : list (pyval * pyval))
            : Forall (fun kv => P (fst kv) /\ P (snd kv)) d :=
            match d with
            | [] => Forall_nil _
            | kv :: r =>
                Forall_cons kv
                  (conj (pyval_nested_ind (fst kv))
                        (pyval_nested_ind (snd kv)))
                  (items r)
            end) d)
  | PyOther cls s r => HOther cls s r
  end.

End PyvalInduction.

Section SequenceFacts.

Context {A B : Type}.

(** A sequence of evaluations returns exactly when each of them does. *)
Lemma rsequence_map_returns (f : A -> Result B) (l : list A) :
  (exists out, rsequence (map f l) = Return out)
  <-> Forall (fun x => exists y, f x = Return y) l.
Proof.
  induction l as [| a l IH]; cbn [map rsequence].
  - split; [constructor | now exists []].
  - split.
    + intros (out & H).
      destruct (f a) as [b | e] eqn:Hfa; cbn [rbind] in H; [| discriminate].
      destruct (rsequence (map f l)) as [t | e]; cbn [rbind] in H;
        [| discriminate].
      constructor; [now exists b | apply IH; now exists t].
    + intros H. inversion H as [| x r (b & Hb) Hr]; subst.
      apply IH in Hr as (t & Ht). rewrite Hb, Ht. cbn [rbind].
      now exists (b :: t).
Qed.

(** What a failing sequence raises was raised by one of its elements. *)
Lemma rsequence_map_raises (f : A -> Result B) (l : list A) e :
  rsequence (map f l) = Raise e -> exists x, In x l /\ f x = Raise e.
Proof.
  induction l as [| a l IH]; cbn [map rsequence]; [discriminate |].
  destruct (f a) as [b | e'] eqn:Hfa; cbn [rbind].
  - destruct (rsequence (map f l)) as [t | e'']; cbn [rbind];
      [discriminate |].
    intros H. destruct IH as (x & Hin & Hx); [assumption |].
    exists x. split; [now right | assumption].
  - intros H. exists a. split; [now left | congruence].
Qed.

(** The values of a returning sequence, element by element. *)
Lemma rsequence_map_Forall2 (f : A -> Result B) (l : list A) out :
  rsequence (map f l) = Return out ->
  Forall2 (fun x y => f x = Return y) l out.
Proof.
  revert out. induction l as [| a l IH]; cbn [map rsequence]; intros out H.
  - assert (out = []) by congruence. subst. constructor.
  - destruct (f a) as [b | e] eqn:Hfa; cbn [rbind] in H; [| discriminate].
    destruct (rsequence (map f l)) as [t | e]; cbn [rbind] in H;
      [| discriminate].
    assert (out = b :: t) by congruence. subst.
    constructor; [assumption | now apply IH].
Qed.

End SequenceFacts.

Module EncoderFacts.
Import Json StringFacts.

Lemma json_key_returns (k : pyval) :
  json_key_ok k = true <-> exists ks, json_key k = Return ks.
Proof.
  destruct k as [| [] | z | f | s | l | l | d | c st rp]; cbn;
    split; intros H; try reflexivity; try discriminate;
    try (eexists; reflexivity);
    destruct H as (ks & H); discriminate.
Qed.

(** The encoder returns exactly on the encodable values, at every nesting
    level. *)
Lemma iterencode_returns (v : pyval) :
  forall level,
    json_encodable v = true <-> exists s, iterencode level v = Return s.
Proof.
  induction v as [| b | z | f | s | l IH | l IH | d IH | c st rp]
    using pyval_nested_ind; intros level.
  - cbn. split; [eexists; reflexivity | reflexivity].
  - destruct b; cbn; (split; [eexists; reflexivity | reflexivity]).
  - cbn. split; [eexists; reflexivity | reflexivity].
  - cbn. split; [eexists; reflexivity | reflexivity].
  - cbn. split; [eexists; reflexivity | reflexivity].
  - destruct l as [| x l]; [cbn; split; [eexists; reflexivity | reflexivity] |].
    cbn [iterencode json_encodable]. set (xs := x :: l) in *.
    rewrite forallb_forall, <- Forall_forall.
    transitivity (Forall (fun y => exists t, iterencode (S level) y = Return t) xs).
    + split; intros H; (eapply Forall_impl; [| exact (Forall_and IH H)]);
        cbn beta; intros y (Hy & Hy'); now apply (Hy (S level)).
    + rewrite <- rsequence_map_returns. split.
      * intros (out & ->). cbn [rbind]. eexists; reflexivity.
      * intros (t & H).
        destruct (rsequence (map (iterencode (S level)) xs)) as [out | e];
          [now exists out | discriminate].
  - destruct l as [| x l]; [cbn; split; [eexists; reflexivity | reflexivity] |].
    cbn [iterencode json_encodable]. set (xs := x :: l) in *.
    rewrite forallb_forall, <- Forall_forall.
    transitivity (Forall (fun y => exists t, iterencode (S level) y = Return t) xs).
    + split; intros H; (eapply Forall_impl; [| exact (Forall_and IH H)]);
        cbn beta; intros y (Hy & Hy'); now apply (Hy (S level)).
    + rewrite <- rsequence_map_returns. split.
      * intros (out & ->). cbn [rbind]. eexists; reflexivity.
      * intros (t & H).
        destruct (rsequence (map (iterencode (S level)) xs)) as [out | e];
          [now exists out | discriminate].
  - destruct d as [| kv0 d]; [cbn; split; [eexists; reflexivity | reflexivity] |].
    cbn [iterencode json_encodable]. set (kvs := kv0 :: d) in *.
    rewrite forallb_forall, <- Forall_forall.
    match goal with
    | |- _ <-> (exists s, rbind (rsequence (map ?f kvs)) _ = _) =>
        transitivity (Forall (fun kv => exists y, f kv = Return y) kvs)
    end.
    + split; intros H; (eapply Forall_impl; [| exact (Forall_and IH H)]);
        cbn beta; intros [k v] ((_ & Hv) & Hkv); cbn [fst snd] in *.
      * apply andb_true_iff in Hkv as (Hk & Hval).
        apply json_key_returns in Hk as (ks & ->).
        apply (Hv (S level)) in Hval as (vs & ->).
        cbn [rbind]. eexists; reflexivity.
      * destruct Hkv as (y & Hy).
        destruct (json_key k) as [ks | e] eqn:Hk; cbn [rbind] in Hy;
          [| discriminate].
        destruct (iterencode (S level) v) as [vs | e] eqn:Hval;
          cbn [rbind] in Hy; [| discriminate].
        apply andb_true_iff. split.
        -- apply json_key_returns. now exists ks.
        -- apply (Hv (S level)). now exists vs.
    + rewrite <- rsequence_map_returns. split.
      * intros (out & ->). cbn [rbind]. eexists; reflexivity.
      * intros (t & H).
        match type of H with
        | rbind ?r _ = _ => destruct r as [out | e];
                            [now exists out | discriminate]
        end.
  - cbn. split; [discriminate | intros (s & H); discriminate].
Qed.

(** Whatever the encoder raises is a TypeError. *)
Lemma iterencode_raises_TypeError (v : pyval) :
  forall level e,
    iterencode level v = Raise e -> exists msg, e = TypeError msg.
Proof.
  induction v as [| b | z | f | s | l IH | l IH | d IH | c st rp]
    using pyval_nested_ind; intros level e.
  - discriminate.
  - destruct b; discriminate.
  - discriminate.
  - discriminate.
  - discriminate.
  - destruct l as [| x l]; [discriminate |].
    cbn [iterencode]. set (xs := x :: l) in *. intros H.
    destruct (rsequence (map (iterencode (S level)) xs)) as [out | e'] eqn:Hs;
      cbn [rbind] in H; [discriminate |].
    apply rsequence_map_raises in Hs as (y & Hin & Hy).
    rewrite Forall_forall in IH.
    replace e with e' by congruence. exact (IH y Hin _ _ Hy).
  - destruct l as [| x l]; [discriminate |].
    cbn [iterencode]. set (xs := x :: l) in *. intros H.
    destruct (rsequence (map (iterencode (S level)) xs)) as [out | e'] eqn:Hs;
      cbn [rbind] in H; [discriminate |].
    apply rsequence_map_raises in Hs as (y & Hin & Hy).
    rewrite Forall_forall in IH.
    replace e with e' by congruence. exact (IH y Hin _ _ Hy).
  - destruct d as [| kv0 d]; [discriminate |].
    cbn [iterencode]. set (kvs := kv0 :: d) in *. intros H.
    match type of H with
    | rbind ?r _ = _ => destruct r as [out | e'] eqn:Hs
    end; cbn [rbind] in H; [discriminate |].
    apply rsequence_map_raises in Hs as ([k v] & Hin & Hy).
    rewrite Forall_forall in IH. destruct (IH _ Hin) as (_ & Hv).
    cbn [fst snd] in *. replace e with e' by congruence.
    destruct k as [| [] | z | f | s | l | l | dk | c st rp];
      cbn [json_key rbind] in Hy;
      try (destruct (iterencode (S level) v) as [vs | e''] eqn:Hval;
           cbn [rbind] in Hy; [discriminate |];
           replace e' with e'' by congruence; exact (Hv _ _ Hval));
      eexists; symmetry; injection Hy as Hy; exact Hy.
  - cbn. intros H. eexists. symmetry. injection H as H. exact H.
Qed.

End EncoderFacts.

Module PlainText.
Import Json StringFacts.

Lemma all_chars_append (p : ascii -> bool) (a b : string) :
  all_chars p (a ++ b) = all_chars p a && all_chars p b.
Proof.
  induction a as [| c a IH]; cbn [append all_chars]; [reflexivity |].
  now rewrite IH, andb_assoc.
Qed.

Lemma all_chars_concat (p : ascii -> bool) (sep : string) (l : list string) :
  all_chars p sep = true ->
  Forall (fun s => all_chars p s = true) l ->
  all_chars p (String.concat sep l) = true.
Proof.
  intros Hsep. induction 1 as [| x l Hx Hl IH]; [reflexivity |].
  destruct l as [| y l]; [exact Hx |].
  change (String.concat sep (x :: y :: l))
    with (x ++ sep ++ String.concat sep (y :: l)).
  now rewrite !all_chars_append, Hx, Hsep, IH.
Qed.

Lemma all_chars_flat_map (p : ascii -> bool) (f : ascii -> string) (s : string) :
  (forall c, all_chars p (f c) = true) ->
  all_chars p (flat_map_string f s) = true.
Proof.
  intros Hf. induction s as [| c s IH]; [reflexivity |].
  cbn [flat_map_string]. now rewrite all_chars_append, Hf, IH.
Qed.

Lemma escape_char_plain (c : ascii) :
  all_chars plain_char (escape_char c) = true.
Proof.
  destruct c as [[] [] [] [] [] [] [] []]; vm_compute; reflexivity.
Qed.

Lemma encode_basestring_plain (s : string) :
  all_chars plain_char (py_encode_basestring_ascii s) = true.
Proof.
  unfold py_encode_basestring_ascii.
  change (String dquote (flat_map_string escape_char s) ++ chr dquote)
    with (chr dquote ++ flat_map_string escape_char s ++ chr dquote).
  rewrite !all_chars_append, all_chars_flat_map by apply escape_char_plain.
  reflexivity.
Qed.

Lemma uint_digits_plain (d : Decimal.uint) :
  all_chars plain_char (NilEmpty.string_of_uint d) = true.
Proof.
  induction d; cbn [NilEmpty.string_of_uint all_chars]; try reflexivity;
    rewrite IHd; reflexivity.
Qed.

Lemma int_repr_plain (z : Z) : all_chars plain_char (int_repr z) = true.
Proof.
  unfold int_repr, NilZero.string_of_int, NilZero.string_of_uint.
  destruct (Z.to_int z) as [d | d]; destruct d;
    try reflexivity; try apply uint_digits_plain;
    cbn [all_chars]; rewrite uint_digits_plain; reflexivity.
Qed.

Lemma floatstr_plain (f : pyfloat) :
  all_chars plain_char (floatstr f) = true.
Proof.
  destruct f as [t | | []]; try reflexivity.
  unfold floatstr, float_text.
  induction t as [| c t IH]; [reflexivity |].
  cbn [map string_of_list_ascii all_chars]. rewrite IH.
  destruct c; reflexivity.
Qed.

Lemma newline_indent_plain (level : nat) :
  all_chars plain_char (newline_indent level) = true.
Proof.
  unfold newline_indent. cbn [all_chars].
  induction level as [| n IH]; [reflexivity |].
  cbn [repeat_string]. rewrite all_chars_append.
  cbn [all_chars] in IH |- *. exact IH.
Qed.

Lemma indented_block_plain (level : nat) (chunks : list string) :
  Forall (fun s => all_chars plain_char s = true) chunks ->
  all_chars plain_char (indented_block level chunks) = true.
Proof.
  intros H. unfold indented_block.
  rewrite !all_chars_append, !newline_indent_plain, all_chars_concat;
    [reflexivity | | exact H].
  rewrite all_chars_append, newline_indent_plain. reflexivity.
Qed.

(** The JSON text holds line breaks and printable ASCII only. *)
Lemma iterencode_plain (v : pyval) :
  forall level s,
    iterencode level v = Return s -> all_chars plain_char s = true.
Proof.
  induction v as [| b | z | f | t | l IH | l IH | d IH | c st rp]
    using pyval_nested_ind; intros level s H.
  - assert (s = "null") by (cbn [iterencode] in H; congruence). now subst.
  - destruct b; cbn [iterencode] in H;
      [assert (s = "true") by congruence | assert (s = "false") by congruence];
      now subst.
  - assert (s = int_repr z) by (cbn [iterencode] in H; congruence). subst.
    apply int_repr_plain.
  - assert (s = floatstr f) by (cbn [iterencode] in H; congruence). subst.
    apply floatstr_plain.
  - assert (s = py_encode_basestring_ascii t) by (cbn [iterencode] in H; congruence).
    subst. apply encode_basestring_plain.
  - destruct l as [| x l].
    { assert (s = "[]") by (cbn [iterencode] in H; congruence). now subst. }
    cbn [iterencode] in H. set (xs := x :: l) in *.
    destruct (rsequence (map (iterencode (S level)) xs)) as [out | e] eqn:Hs;
      cbn [rbind] in H; [| discriminate].
    assert (Hout : s = "[" ++ indented_block level out ++ "]") by congruence.
    subst s. rewrite !all_chars_append, indented_block_plain; [reflexivity |].
    apply rsequence_map_Forall2 in Hs. clear H.
    induction Hs as [| y o ys os Hy Hrest IHrest]; constructor.
    + inversion IH; subst. eauto.
    + apply IHrest. now inversion IH.
  - destruct l as [| x l].
    { assert (s = "[]") by (cbn [iterencode] in H; congruence). now subst. }
    cbn [iterencode] in H. set (xs := x :: l) in *.
    destruct (rsequence (map (iterencode (S level)) xs)) as [out | e] eqn:Hs;
      cbn [rbind] in H; [| discriminate].
    assert (Hout : s = "[" ++ indented_block level out ++ "]") by congruence.
    subst s. rewrite !all_chars_append, indented_block_plain; [reflexivity |].
    apply rsequence_map_Forall2 in Hs. clear H.
    induction Hs as [| y o ys os Hy Hrest IHrest]; constructor.
    + inversion IH; subst. eauto.
    + apply IHrest. now inversion IH.
  - destruct d as [| kv0 d].
    { assert (s = "{}") by (cbn [iterencode] in H; congruence). now subst. }
    cbn [iterencode] in H. set (kvs := kv0 :: d) in *.
    match type of H with
    | rbind ?r _ = _ => destruct r as [out | e] eqn:Hs
    end; cbn [rbind] in H; [| discriminate].
    assert (Hout : s = "{" ++ indented_block level out ++ "}") by congruence.
    subst s. rewrite !all_chars_append, indented_block_plain; [reflexivity |].
    apply rsequence_map_Forall2 in Hs. clear H.
    induction Hs as [| [k v] o ys os Hy Hrest IHrest]; constructor.
    + inversion IH as [| ? ? (_ & Hv) ?]; subst. cbn [fst snd] in *.
      destruct (json_key k) as [ks | e]; cbn [rbind] in Hy; [| discriminate].
      destruct (iterencode (S level) v) as [vs | e] eqn:Hval;
        cbn [rbind] in Hy; [| discriminate].
      assert (o = dict_item ks vs) by congruence. subst o.
      unfold dict_item.
      rewrite !all_chars_append, encode_basestring_plain, (Hv _ _ Hval).
      reflexivity.
    + apply IHrest. now inversion IH.
  - discriminate.
Qed.

End PlainText.

Section LookupFacts.

Lemma dict_has_app (d1 d2 : pydict) (k : string) :
  dict_has (d1 ++ d2)%list k = dict_has d1 k || dict_has d2 k.
Proof.
  unfold dict_has. apply existsb_app.
Qed.

Lemma dict_get_first_binding (d : pydict) (k : string) (v default : pyval) :
  first_binding d k v -> dict_get d k default = v.
Proof.
  intros (before & after & -> & Hlacks).
  induction before as [| [key x] before IH]; cbn [app dict_get].
  - cbn [key_is]. now rewrite String.eqb_refl.
  - cbn [dict_has existsb fst] in Hlacks.
    apply orb_false_iff in Hlacks as (Hkey & Hrest).
    rewrite Hkey. apply IH, Hrest.
Qed.

Lemma dict_has_first_binding (d : pydict) (k : string) :
  dict_has d k = true <-> exists v, first_binding d k v.
Proof.
  split.
  - induction d as [| [key x] d IH]; cbn [dict_has existsb fst];
      [discriminate |].
    destruct (key_is k key) eqn:Hkey; cbn [orb].
    + intros _. destruct key as [| | | | s | | | |]; try discriminate.
      cbn [key_is] in Hkey. apply String.eqb_eq in Hkey as ->.
      exists x, [], d. split; reflexivity.
    + intros H. destruct (IH H) as (v & before & after & -> & Hb).
      exists v, ((key, x) :: before), after. split; [reflexivity |].
      cbn [dict_has existsb fst]. now rewrite Hkey.
  - intros (v & before & after & -> & _).
    rewrite dict_has_app. cbn [dict_has existsb fst key_is].
    rewrite String.eqb_refl. now rewrite orb_true_r.
Qed.

End LookupFacts.

Section RenderFacts.
Import Json.

Lemma render_returns (params : option pydict) :
  params_encodable params = true
  <-> exists ps, render_params_section params = Return ps.
Proof.
  destruct params as [[| kv rest] |]; cbn [params_encodable].
  - split; [now exists "" | reflexivity].
  - unfold render_params_section, dumps.
    rewrite (EncoderFacts.iterencode_returns (PyDict (kv :: rest)) 0).
    split.
    + intros (j & ->). cbn [rbind]. eexists; reflexivity.
    + intros (ps & H).
      destruct (iterencode 0 (PyDict (kv :: rest))) as [j | e];
        [now exists j | discriminate].
  - split; [now exists "" | reflexivity].
Qed.

Lemma render_raises_TypeError (params : option pydict) e :
  render_params_section params = Raise e -> exists msg, e = TypeError msg.
Proof.
  destruct params as [[| kv rest] |]; try discriminate.
  unfold render_params_section, dumps.
  destruct (iterencode 0 (PyDict (kv :: rest))) as [j | e'] eqn:H;
    cbn [rbind]; [discriminate |].
  intros He. replace e with e' by congruence.
  exact (EncoderFacts.iterencode_raises_TypeError _ _ _ H).
Qed.

End RenderFacts.

Section CancelFacts.

Lemma length_append (a b : string) :
  String.length (a ++ b) = String.length a + String.length b.
Proof.
  induction a as [| c a IH]; cbn; [reflexivity | now rewrite IH].
Qed.

Lemma append_inv_head (p a b : string) : p ++ a = p ++ b -> a = b.
Proof.
  induction p as [| c p IH]; cbn [append]; intros H; [exact H |].
  injection H as H. now apply IH.
Qed.

Lemma append_inv_tail (a b t : string) : a ++ t = b ++ t -> a = b.
Proof.
  revert b. induction a as [| c a IH]; intros [| c' b] H; cbn [append] in H.
  - reflexivity.
  - apply (f_equal String.length) in H. cbn [String.length] in H.
    rewrite length_append in H. lia.
  - apply (f_equal String.length) in H. cbn [String.length] in H.
    rewrite length_append in H. lia.
  - injection H as -> H. f_equal. now apply IH.
Qed.

End CancelFacts.


(** ** The runs of [process_workflow], case by case *)

Section Runs.

Variable BackendState : Type.
Variable yaml_safe_load : string -> Result pyval.

Abbreviation process := (process_workflow yaml_safe_load).

Ltac step_run :=
  cbn [self agent backend sent log fst snd rbind py_get].

Ltac run_process :=
  unfold process_workflow, call_agent, bind, get_self_agent, logger, lift,
    ret, await_run, extract_metadata, logged, prompted;
  step_run.

Lemma run_unbound doc params (w : World BackendState) :
  agent (self w) = None ->
  process doc params w = (Return no_agent_outcome, w).
Proof.
  intros H. run_process. rewrite H. reflexivity.
Qed.

Lemma run_parse_failure doc params (w : World BackendState) ag e :
  agent (self w) = Some ag ->
  yaml_safe_load doc = Raise e ->
  process doc params w =
    (Return (parse_error_outcome e),
     logged w [(INFO, "Processing workflow");
               (ERROR, parse_error_message e)]).
Proof.
  intros Hag Hload. run_process. rewrite Hag, Hload.
  step_run. rewrite <- app_assoc. reflexivity.
Qed.

Lemma run_not_mapping doc params (w : World BackendState) ag v :
  agent (self w) = Some ag ->
  yaml_safe_load doc = Return v ->
  (forall d, v <> PyDict d) ->
  process doc params w =
    (Raise (AttributeError
              ("'" ++ type_name v ++ "' object has no attribute 'get'")),
     logged w [(INFO, "Processing workflow")]).
Proof.
  intros Hag Hload Hv. run_process. rewrite Hag, Hload.
  destruct v; try reflexivity. now elim (Hv d).
Qed.

Lemma run_params_failure doc params (w : World BackendState) ag d e :
  agent (self w) = Some ag ->
  yaml_safe_load doc = Return (PyDict d) ->
  render_params_section params = Raise e ->
  process doc params w =
    (Raise e, logged w [(INFO, "Processing workflow"); executing_record d]).
Proof.
  intros Hag Hload Hps. run_process. rewrite Hag, Hload.
  step_run. rewrite Hps. step_run.
  unfold executing_record, scenario_name_of, domain_of.
  rewrite <- app_assoc. reflexivity.
Qed.

Lemma run_backend doc params (w : World BackendState) ag d ps :
  agent (self w) = Some ag ->
  yaml_safe_load doc = Return (PyDict d) ->
  render_params_section params = Return ps ->
  let prompt := build_prompt (domain_of d) ps doc in
  process doc params w =
    (match fst (run ag (backend w) prompt) with
     | Return response =>
         Return (success_outcome (scenario_name_of d) (domain_of d) response)
     | Raise e => Raise e
     end,
     prompted
       (logged w [(INFO, "Processing workflow"); executing_record d])
       prompt (snd (run ag (backend w) prompt))).
Proof.
  intros Hag Hload Hps prompt. run_process. rewrite Hag, Hload.
  step_run. rewrite Hps. step_run. rewrite Hag. step_run.
  unfold executing_record. fold (domain_of d) (scenario_name_of d).
  fold prompt.
  destruct (run ag (backend w) prompt) as [[response | e] s];
    step_run; rewrite <- app_assoc; reflexivity.
Qed.

(** Every run falls under exactly one of the five lemmas above. *)
Lemma run_cases doc params (w : World BackendState) :
  agent (self w) = None
  \/ (exists ag e, agent (self w) = Some ag /\ yaml_safe_load doc = Raise e)
  \/ (exists ag v, agent (self w) = Some ag /\ yaml_safe_load doc = Return v
                   /\ forall d, v <> PyDict d)
  \/ (exists ag d e, agent (self w) = Some ag
                     /\ yaml_safe_load doc = Return (PyDict d)
                     /\ render_params_section params = Raise e)
  \/ (exists ag d ps, agent (self w) = Some ag
                      /\ yaml_safe_load doc = Return (PyDict d)
                      /\ render_params_section params = Return ps).
Proof.
  destruct (agent (self w)) as [ag |]; [right | now left].
  destruct (yaml_safe_load doc) as [v | e]; [right | left; now exists ag, e].
  destruct v as [| b | z | f | s | l | l | d | c st rp];
    try (left; eexists ag, _; repeat split; discriminate).
  right. destruct (render_params_section params) as [ps | e].
  - right. now exists ag, d, ps.
  - left. now exists ag, d, e.
Qed.

Ltac by_cases doc params w :=
  let ag := fresh "ag" in
  let e := fresh "e" in
  let v := fresh "v" in
  let d := fresh "d" in
  let ps := fresh "ps" in
  let Hnone := fresh "Hnone" in
  let Hag := fresh "Hag" in
  let Hload := fresh "Hload" in
  let Hv := fresh "Hv" in
  let Hps := fresh "Hps" in
  destruct (run_cases doc params w)
    as [Hnone
       | [(ag & e & Hag & Hload)
         | [(ag & v & Hag & Hload & Hv)
           | [(ag & d & e & Hag & Hload & Hps)
             | (ag & d & ps & Hag & Hload & Hps)]]]];
  [ rewrite (run_unbound doc params w Hnone)
  | rewrite (run_parse_failure doc params w ag e Hag Hload)
  | rewrite (run_not_mapping doc params w ag v Hag Hload Hv)
  | rewrite (run_params_failure doc params w ag d e Hag Hload Hps)
  | rewrite (run_backend doc params w ag d ps Hag Hload Hps) ].

(** A call leaves the processor object as it found it. *)
Lemma process_frame doc params (w : World BackendState) :
  self (snd (process doc params w)) = self w.
Proof.
  by_cases doc params w; reflexivity.
Qed.

(** A call passes no prompt or exactly one prompt to the backend. *)
Lemma process_sent doc params (w : World BackendState) :
  sent (snd (process doc params w)) = sent w
  \/ exists ag d ps,
       agent (self w) = Some ag
       /\ yaml_safe_load doc = Return (PyDict d)
       /\ render_params_section params = Return ps
       /\ sent (snd (process doc params w))
          = (sent w ++ [build_prompt (domain_of d) ps doc])%list.
Proof.
  by_cases doc params w; try (left; reflexivity).
  right. now exists ag, d, ps.
Qed.

Lemma build_prompt_sections (domain : pyval) (ps doc : string) :
  build_prompt domain ps doc
  = domain_statement domain ++ ps ++ fenced_document doc
      ++ step_directives ++ placeholder_directive.
Proof.
  unfold build_prompt, domain_statement, fenced_document, fence_open,
    fence_close, step_directives, placeholder_directive.
  rewrite !StringFacts.append_assoc. reflexivity.
Qed.

Lemma build_prompt_contains_doc (domain : pyval) (ps doc : string) :
  Contains doc (build_prompt domain ps doc).
Proof.
  rewrite build_prompt_sections. unfold fenced_document.
  exists (domain_statement domain ++ ps ++ fence_open),
         (fence_close ++ step_directives ++ placeholder_directive).
  rewrite !StringFacts.append_assoc. reflexivity.
Qed.

Lemma app_one_inv {A : Type} (l : list A) (x y : A) :
  (l ++ [x] = l ++ [y])%list -> x = y.
Proof.
  intros H. apply app_inv_head in H. congruence.
Qed.

Lemma app_one_neq {A : Type} (l : list A) (x : A) :
  l <> (l ++ [x])%list.
Proof.
  intros H. apply (f_equal (@List.length A)) in H.
  rewrite length_app in H. cbn in H. lia.
Qed.

(** ** The properties of [process_workflow] *)

(** C2. With no backend bound, for every document text and every parameters
    argument, the call returns the dict with status error and message
    No agent set for workflow processing.  It returns rather than raises,
    and the world is the one it started from: no prompt was passed to a
    backend, no backend state changed and nothing was logged. *)
Theorem unbound_returns_error doc params (w : World BackendState) :
  agent (self w) = None ->
  process doc params w
  = (Return [ (PyStr "status", PyStr "error");
              (PyStr "message",
               PyStr "No agent set for workflow processing") ],
     w).
Proof.
  intros H. apply run_unbound, H.
Qed.

(** C3. With a backend bound, a text on which the parser raises [e] makes
    the call return the dict with status error whose message is
    Error parsing workflow YAML: followed by str(e), so the message
    contains the parser's diagnostic, and no prompt is sent.  Conversely an
    error dict is returned only then, and whatever the call raises was not
    raised by the parser: no other failure is wrapped. *)
Theorem parse_failure_wrapped doc params (w : World BackendState) a :
  agent (self w) = Some a ->
  (forall e, yaml_safe_load doc = Raise e ->
     fst (process doc params w)
     = Return [ (PyStr "status", PyStr "error");
                (PyStr "message",
                 PyStr ("Error parsing workflow YAML: " ++ exc_str e)) ]
     /\ Contains (exc_str e) ("Error parsing workflow YAML: " ++ exc_str e)
     /\ sent (snd (process doc params w)) = sent w)
  /\ (forall o, fst (process doc params w) = Return o ->
        outcome_field o "status" = Some (PyStr "error") ->
        exists e, yaml_safe_load doc = Raise e /\ o = parse_error_outcome e)
  /\ (forall e, fst (process doc params w) = Raise e ->
        exists v, yaml_safe_load doc = Return v).
Proof.
  intros Hbound. repeat split.
  - rewrite (run_parse_failure doc params w a e Hbound H). reflexivity.
  - apply StringFacts.Contains_append_l, StringFacts.Contains_refl.
  - rewrite (run_parse_failure doc params w a e Hbound H). reflexivity.
  - intros o. by_cases doc params w; cbn [fst]; intros Ho Hstatus.
    + congruence.
    + exists e. split; [assumption | congruence].
    + discriminate.
    + discriminate.
    + destruct (fst (run ag (backend w) _)) as [response | e];
        [| discriminate].
      assert (o = success_outcome (scenario_name_of d) (domain_of d) response)
        by congruence.
      subst o. discriminate.
  - intros e0. by_cases doc params w; cbn [fst]; intros He.
    + discriminate.
    + discriminate.
    + now exists v.
    + now exists (PyDict d).
    + now exists (PyDict d).
Qed.

(** C9. With a backend bound, a text that loads without a failure to
    anything but a mapping (None for the empty document, a scalar, a list)
    makes the call raise AttributeError at the first [workflow.get]: no
    dict is returned and no prompt is sent. *)
Theorem non_mapping_raises doc params (w : World BackendState) ag v :
  agent (self w) = Some ag ->
  yaml_safe_load doc = Return v ->
  (forall d, v <> PyDict d) ->
  fst (process doc params w)
  = Raise (PyExc "AttributeError"
             ("'" ++ type_name v ++ "' object has no attribute 'get'"))
  /\ sent (snd (process doc params w)) = sent w
  /\ backend (snd (process doc params w)) = backend w.
Proof.
  intros Hbound Hload Hv.
  rewrite (run_not_mapping doc params w ag v Hbound Hload Hv).
  repeat split.
Qed.

(** C7. A failure raised while the backend call is awaited is raised by
    the call itself, unchanged: the result is that exception and not a
    returned dict.  The prompt had been passed to the backend. *)
Theorem backend_failure_propagates doc params (w : World BackendState)
  ag d ps e s :
  agent (self w) = Some ag ->
  yaml_safe_load doc = Return (PyDict d) ->
  render_params_section params = Return ps ->
  run ag (backend w) (build_prompt (domain_of d) ps doc) = (Raise e, s) ->
  fst (process doc params w) = Raise e
  /\ (forall o, fst (process doc params w) <> Return o)
  /\ sent (snd (process doc params w))
     = (sent w ++ [build_prompt (domain_of d) ps doc])%list.
Proof.
  intros Hbound Hload Hps Hrun.
  rewrite (run_backend doc params w ag d ps Hbound Hload Hps).
  cbv zeta. rewrite Hrun. cbn [fst snd prompted sent logged].
  repeat split. discriminate.
Qed.

(** C10. A call leaves the processor object unchanged, whatever its
    arguments and however it ends: the agent attribute afterwards is the
    one before.  The attribute is assigned by the constructor and by
    [set_agent]. *)
Theorem process_keeps_agent doc params (w : World BackendState) :
  self (snd (process doc params w)) = self w
  /\ agent (self (snd (process doc params w))) = agent (self w)
  /\ (forall a, agent (self (snd (init a w))) = a)
  /\ (forall a, agent (self (snd (set_agent a w))) = Some a).
Proof.
  repeat split.
  - apply process_frame.
  - now rewrite process_frame.
Qed.

(** C1, as amended.  When the text loads to a mapping, a backend is bound,
    the parameters are absent, empty or accepted by json.dumps, and the
    awaited backend call returns a response, the call returns the dict with
    status success, the scenario_name and domain read from the mapping (or
    their defaults), the response's result.text as result, and the message
    Successfully executed workflow '<scenario_name>' using agent. *)
Theorem process_success doc params (w : World BackendState)
  ag d ps response s :
  agent (self w) = Some ag ->
  yaml_safe_load doc = Return (PyDict d) ->
  render_params_section params = Return ps ->
  run ag (backend w) (build_prompt (domain_of d) ps doc)
  = (Return response, s) ->
  fst (process doc params w)
  = Return
      [ (PyStr "status", PyStr "success");
        (PyStr "scenario_name",
         dict_get d "scenario_name" (PyStr "Unnamed Scenario"));
        (PyStr "domain", dict_get d "domain" (PyStr "general"));
        (PyStr "result", text (result response));
        (PyStr "message",
         PyStr ("Successfully executed workflow '"
                  ++ py_str (dict_get d "scenario_name"
                               (PyStr "Unnamed Scenario"))
                  ++ "' using agent")) ].
Proof.
  intros Hbound Hload Hps Hrun.
  rewrite (run_backend doc params w ag d ps Hbound Hload Hps).
  cbv zeta. rewrite Hrun. reflexivity.
Qed.

(** C6. Reading the metadata of a mapping never raises, and a field the
    mapping lacks is read as its default: Unnamed Scenario, general and the
    empty list.  The defaults are what a successful call reports. *)
Theorem metadata_defaults (d : pydict) :
  (exists scenario_name domain disclaimers,
     extract_metadata (PyDict d)
     = Return (scenario_name, domain, disclaimers)
     /\ (lacks d "scenario_name" ->
         scenario_name = PyStr "Unnamed Scenario")
     /\ (lacks d "domain" -> domain = PyStr "general")
     /\ (lacks d "additional_disclaimers" -> disclaimers = PyList []))
  /\ (forall doc params (w : World BackendState) ag ps response s,
        agent (self w) = Some ag ->
        yaml_safe_load doc = Return (PyDict d) ->
        render_params_section params = Return ps ->
        run ag (backend w) (build_prompt (domain_of d) ps doc)
        = (Return response, s) ->
        exists o,
          fst (process doc params w) = Return o
          /\ (lacks d "scenario_name" ->
              outcome_field o "scenario_name"
              = Some (PyStr "Unnamed Scenario")
              /\ outcome_field o "message"
                 = Some (PyStr "Successfully executed workflow 'Unnamed Scenario' using agent"))
          /\ (lacks d "domain" ->
              outcome_field o "domain" = Some (PyStr "general")
              /\ Contains "for domain 'general'"
                   (build_prompt (domain_of d) ps doc))).
Proof.
  split.
  - exists (scenario_name_of d), (domain_of d), (disclaimers_of d).
    split; [reflexivity |].
    repeat split; intros H; apply dict_get_lacks, H.
  - intros doc params w ag ps response s Hbound Hload Hps Hrun.
    exists (success_outcome (scenario_name_of d) (domain_of d) response).
    split; [| split].
    + rewrite (run_backend doc params w ag d ps Hbound Hload Hps).
      cbv zeta. rewrite Hrun. reflexivity.
    + intros H. unfold scenario_name_of.
      rewrite (dict_get_lacks d _ _ H). split; reflexivity.
    + intros H. unfold domain_of.
      rewrite (dict_get_lacks d _ _ H). split; [reflexivity |].
      rewrite build_prompt_sections. apply StringFacts.Contains_append_r.
      apply StringFacts.containsb_sound. vm_compute. reflexivity.
Qed.

(** C5. Whenever a call passes a prompt to the backend, the text was loaded
    to a mapping and the prompt is, in this order, the domain statement,
    the parameters section (empty or rendered), the document inside its
    fence exactly as given, the step directives and the placeholder
    directive; so the document text occurs in the prompt as one contiguous
    block. *)
Theorem prompt_layout doc params (w : World BackendState) prompt :
  sent (snd (process doc params w)) = (sent w ++ [prompt])%list ->
  exists d ps,
    yaml_safe_load doc = Return (PyDict d)
    /\ render_params_section params = Return ps
    /\ prompt
       = domain_statement (dict_get d "domain" (PyStr "general"))
           ++ ps
           ++ (fence_open ++ doc ++ fence_close)
           ++ step_directives
           ++ placeholder_directive
    /\ Contains doc prompt.
Proof.
  intros Hsent.
  destruct (process_sent doc params w)
    as [Hsame | (ag & d & ps & _ & Hload & Hps & Hone)].
  - rewrite Hsame in Hsent. now apply app_one_neq in Hsent.
  - rewrite Hone in Hsent. apply app_one_inv in Hsent. subst prompt.
    exists d, ps. repeat split; try assumption.
    + apply build_prompt_sections.
    + apply build_prompt_contains_doc.
Qed.

(** C4, as amended.  With a backend bound and a text that loads to a
    mapping: when the parameters are a non-empty dict that json.dumps
    accepts, one prompt is sent, it contains the heading Parameters: and
    the JSON text, and every key of the dict stands in it on an indented
    line of its own, as a JSON string followed by a colon; json.dumps
    accepts a dict exactly when every key in it is a str, int, float, bool
    or None and every value is built from None, bool, int, float, str,
    lists, tuples and dicts; when the parameters are omitted or empty, the
    prompt sent has nothing between the domain statement and the colon
    that opens the fenced document. *)
Theorem params_in_prompt doc params (w : World BackendState) ag d :
  agent (self w) = Some ag ->
  yaml_safe_load doc = Return (PyDict d) ->
  (forall kv rest j,
     params = Some (kv :: rest) ->
     Json.dumps (PyDict (kv :: rest)) = Return j ->
     exists prompt,
       sent (snd (process doc params w)) = (sent w ++ [prompt])%list
       /\ Contains (chr nl ++ "Parameters:" ++ chr nl ++ j) prompt
       /\ forall k v, In (k, v) (kv :: rest) ->
            exists ks,
              Json.json_key k = Return ks
              /\ Contains (chr nl ++ "  "
                             ++ Json.py_encode_basestring_ascii ks ++ ": ")
                   prompt)
  /\ (forall p : pydict,
        (exists j, Json.dumps (PyDict p) = Return j)
        <-> json_encodable (PyDict p) = true)
  /\ (params = None \/ params = Some [] ->
      sent (snd (process doc params w))
      = (sent w ++ [ (domain_statement (domain_of d)
                        ++ fenced_document doc
                        ++ step_directives
                        ++ placeholder_directive)%string ])%list).
Proof.
  intros Hbound Hload. split; [| split].
  - intros kv rest j -> Hj.
    assert (Hps : render_params_section (Some (kv :: rest))
                  = Return (chr nl ++ "Parameters:" ++ chr nl ++ j)).
    { cbn [render_params_section]. rewrite Hj. reflexivity. }
    eexists. split.
    + rewrite (run_backend doc _ w ag d _ Hbound Hload Hps). reflexivity.
    + assert (Hin : Contains (chr nl ++ "Parameters:" ++ chr nl ++ j)
                      (build_prompt (domain_of d)
                         (chr nl ++ "Parameters:" ++ chr nl ++ j) doc)).
      { rewrite build_prompt_sections.
        apply StringFacts.Contains_append_l, StringFacts.Contains_prefix. }
      split; [exact Hin |].
      intros k v Hkv.
      destruct (JsonFacts.dumps_dict_keys _ _ Hj k v Hkv) as (ks & Hks & Hline).
      exists ks. split; [assumption |].
      eapply StringFacts.Contains_trans; [| exact Hin].
      do 3 apply StringFacts.Contains_append_l. exact Hline.
  - intros p. symmetry.
    exact (EncoderFacts.iterencode_returns (PyDict p) 0).
  - intros Hnone.
    assert (Hps : render_params_section params = Return "")
      by (destruct Hnone as [-> | ->]; reflexivity).
    rewrite (run_backend doc _ w ag d _ Hbound Hload Hps).
    cbn [snd prompted sent logged]. rewrite build_prompt_sections.
    reflexivity.
Qed.

(** C8. When the bound backend answers a prompt the same way in every
    state, the result of a call depends on the document and the parameters
    only: two calls in any two worlds with the same bound backend end alike,
    and so does a call repeated in the world its predecessor left. *)
Theorem deterministic_backend_repeatable doc params
  (w1 w2 : World BackendState) :
  agent (self w1) = agent (self w2) ->
  (forall ag, agent (self w1) = Some ag -> deterministic_agent ag) ->
  fst (process doc params w1) = fst (process doc params w2)
  /\ fst (process doc params (snd (process doc params w1)))
     = fst (process doc params w1).
Proof.
  intros Hsame Hdet.
  assert (Hgen : forall w w' : World BackendState,
            agent (self w) = agent (self w') ->
            (forall ag, agent (self w) = Some ag -> deterministic_agent ag) ->
            fst (process doc params w) = fst (process doc params w')).
  { clear. intros w w' Hsame Hdet.
    by_cases doc params w; rewrite Hsame in *.
    - now rewrite (run_unbound doc params w' Hnone).
    - now rewrite (run_parse_failure doc params w' ag e Hag Hload).
    - now rewrite (run_not_mapping doc params w' ag v Hag Hload Hv).
    - now rewrite (run_params_failure doc params w' ag d e Hag Hload Hps).
    - rewrite (run_backend doc params w' ag d ps Hag Hload Hps).
      cbn [fst]. rewrite (Hdet ag Hag (backend w) (backend w')).
      reflexivity. }
  split.
  - apply Hgen; assumption.
  - symmetry. apply Hgen; [| assumption].
    now rewrite process_frame.
Qed.

(** ** Further properties of the processor *)

(** X1. Binding the backend late is the same as binding it in the
    constructor: constructing without an agent and then calling [set_agent]
    leaves the world the constructor with that agent leaves, so every later
    call behaves alike; a second [set_agent] replaces the first; and before
    any binding a call returns the no-agent error. *)
Theorem late_binding doc params (a b : IAgent BackendState)
  (w : World BackendState) :
  snd (set_agent a (snd (init None w))) = snd (init (Some a) w)
  /\ snd (set_agent b (snd (set_agent a w))) = snd (set_agent b w)
  /\ process doc params (snd (set_agent a (snd (init None w))))
     = process doc params (snd (init (Some a) w))
  /\ fst (process doc params (snd (init None w)))
     = Return [ (PyStr "status", PyStr "error");
                (PyStr "message",
                 PyStr "No agent set for workflow processing") ]
  /\ sent (snd (init (Some a) w)) = sent w
  /\ backend (snd (init (Some a) w)) = backend w
  /\ log (snd (init (Some a) w))
     = (log w ++ [(INFO, "Workflow Processor initialized")])%list.
Proof.
  repeat split.
Qed.

(** X2. A returned dict has one of two shapes: the keys status and message
    with status error, or the keys status, scenario_name, domain, result
    and message with status success; the message is a str in both. *)
Theorem outcome_shape doc params (w : World BackendState) o :
  fst (process doc params w) = Return o ->
  (exists m, o = [ (PyStr "status", PyStr "error");
                   (PyStr "message", PyStr m) ])
  \/ (exists name dom res m,
        o = [ (PyStr "status", PyStr "success");
              (PyStr "scenario_name", name);
              (PyStr "domain", dom);
              (PyStr "result", res);
              (PyStr "message", PyStr m) ]).
Proof.
  by_cases doc params w; cbn [fst]; intros Ho; try discriminate.
  - left. exists "No agent set for workflow processing".
    unfold no_agent_outcome in Ho. congruence.
  - left. exists (parse_error_message e).
    unfold parse_error_outcome in Ho. congruence.
  - right. destruct (fst (run ag (backend w) _)) as [response | e0];
      [| discriminate].
    exists (scenario_name_of d), (domain_of d), (text (result response)),
      (success_message (scenario_name_of d)).
    unfold success_outcome in Ho. congruence.
Qed.

(** X3. For parameters that are trees (no list, tuple or dict holds itself)
    and a backend whose reply carries result.text, which is what the types
    [pyval] and [AgentResponse] admit, a call raises in three situations
    only, each with a backend bound: the text loaded to something that is
    not a mapping (AttributeError), the mapping was read but json.dumps
    rejected the parameters (a TypeError), or the awaited backend call
    raised. *)
Theorem raised_exceptions doc params (w : World BackendState) e :
  fst (process doc params w) = Raise e ->
  exists a,
    agent (self w) = Some a
    /\ ((exists v, yaml_safe_load doc = Return v
                   /\ (forall d, v <> PyDict d)
                   /\ e = PyExc "AttributeError"
                            ("'" ++ type_name v
                               ++ "' object has no attribute 'get'"))
        \/ (exists d msg, yaml_safe_load doc = Return (PyDict d)
                          /\ render_params_section params = Raise e
                          /\ e = PyExc "TypeError" msg)
        \/ (exists d ps, yaml_safe_load doc = Return (PyDict d)
                         /\ render_params_section params = Return ps
                         /\ fst (run a (backend w)
                                   (build_prompt (domain_of d) ps doc))
                            = Raise e)).
Proof.
  by_cases doc params w; cbn [fst]; intros He; try discriminate.
  - exists ag. split; [assumption |]. left. exists v.
    repeat split; try assumption. unfold AttributeError in He. congruence.
  - exists ag. split; [assumption |]. right; left.
    assert (e0 = e) by congruence. subst e0.
    destruct (render_raises_TypeError params e Hps) as (msg & Hmsg).
    exists d, msg. repeat split; assumption.
  - exists ag. split; [assumption |]. right; right. exists d, ps.
    repeat split; try assumption.
    destruct (fst (run ag (backend w) _)) as [response | e0];
      [discriminate | congruence].
Qed.

(** X4. A call passes at most one prompt to the backend.  When it passes
    none, the backend's state is untouched; when it passes one, the
    backend's state is the one that call to [run] left. *)
Theorem backend_called_at_most_once doc params (w : World BackendState) :
  (sent (snd (process doc params w)) = sent w
   /\ backend (snd (process doc params w)) = backend w)
  \/ (exists a d ps,
        agent (self w) = Some a
        /\ yaml_safe_load doc = Return (PyDict d)
        /\ render_params_section params = Return ps
        /\ sent (snd (process doc params w))
           = (sent w ++ [build_prompt (domain_of d) ps doc])%list
        /\ backend (snd (process doc params w))
           = snd (run a (backend w) (build_prompt (domain_of d) ps doc))).
Proof.
  by_cases doc params w; try (left; split; reflexivity).
  right. exists ag, d, ps. repeat split; assumption.
Qed.

(** X5. The log only grows, by at most two records per call.  A record of
    level ERROR is added exactly when the parser raised, and its text is
    the message of the returned error dict. *)
Theorem log_growth doc params (w : World BackendState) :
  exists records,
    log (snd (process doc params w)) = (log w ++ records)%list
    /\ length records <= 2
    /\ (agent (self w) = None -> records = [])
    /\ (forall a, agent (self w) = Some a ->
          exists rest, records = (INFO, "Processing workflow") :: rest)
    /\ (forall m, In (ERROR, m) records <->
          exists a e, agent (self w) = Some a
                      /\ yaml_safe_load doc = Raise e
                      /\ m = "Error parsing workflow YAML: " ++ exc_str e)
    /\ (forall m, In (ERROR, m) records ->
          fst (process doc params w)
          = Return [ (PyStr "status", PyStr "error");
                     (PyStr "message", PyStr m) ]).
Proof.
  by_cases doc params w; cbn [fst snd log logged prompted].
  - exists []. rewrite app_nil_r.
    repeat split; try (cbn; lia); try congruence; try contradiction.
    intros (a & e & Ha & _). congruence.
  - eexists. split; [reflexivity |]. split; [cbn; lia |].
    split; [congruence |]. split; [intros; eexists; reflexivity |].
    split.
    + intros m. split.
      * intros [H | [H | []]]; [discriminate |].
        exists ag, e. repeat split; try assumption.
        unfold parse_error_message in H. congruence.
      * intros (a & e' & _ & He' & ->). right; left.
        unfold parse_error_message. congruence.
    + intros m [H | [H | []]]; [discriminate |].
      injection H as <-. reflexivity.
  - eexists. split; [reflexivity |]. split; [cbn; lia |].
    split; [congruence |]. split; [intros; eexists; reflexivity |].
    split.
    + intros m. split.
      * intros [H | []]. discriminate.
      * intros (a & e' & _ & He' & _). congruence.
    + intros m [H | []]. discriminate.
  - eexists. split; [reflexivity |]. split; [cbn; lia |].
    split; [congruence |]. split; [intros; eexists; reflexivity |].
    split.
    + intros m. split.
      * intros [H | [H | []]]; discriminate.
      * intros (a & e' & _ & He' & _). congruence.
    + intros m [H | [H | []]]; discriminate.
  - eexists. split; [reflexivity |]. split; [cbn; lia |].
    split; [congruence |]. split; [intros; eexists; reflexivity |].
    split.
    + intros m. split.
      * intros [H | [H | []]]; discriminate.
      * intros (a & e' & _ & He' & _). congruence.
    + intros m [H | [H | []]]; discriminate.
Qed.

(** X8. A call made again with the same arguments repeats the interaction of
    the first, whatever the backend did in between: the same prompts are
    sent again and the same records are logged again. *)
Theorem repeated_call_repeats_interaction doc params
  (w : World BackendState) :
  exists prompts records,
    sent (snd (process doc params w)) = (sent w ++ prompts)%list
    /\ log (snd (process doc params w)) = (log w ++ records)%list
    /\ sent (snd (process doc params (snd (process doc params w))))
       = (sent w ++ prompts ++ prompts)%list
    /\ log (snd (process doc params (snd (process doc params w))))
       = (log w ++ records ++ records)%list.
Proof.
  pose proof (process_frame doc params w) as Hframe.
  revert Hframe. set (w1 := snd (process doc params w)).
  intros Hframe.
  assert (Hagent : agent (self w1) = agent (self w)) by now rewrite Hframe.
  subst w1.
  destruct (run_cases doc params w)
    as [Hnone
       | [(ag & e & Hag & Hload)
         | [(ag & v & Hag & Hload & Hv)
           | [(ag & d & e & Hag & Hload & Hps)
             | (ag & d & ps & Hag & Hload & Hps)]]]].
  - rewrite Hnone in Hagent.
    rewrite (run_unbound doc params _ Hagent).
    rewrite (run_unbound doc params w Hnone).
    exists [], []. cbn [snd]. rewrite !app_nil_r. repeat split.
  - rewrite Hag in Hagent.
    rewrite (run_parse_failure doc params _ ag e Hagent Hload).
    rewrite (run_parse_failure doc params w ag e Hag Hload).
    exists [], [(INFO, "Processing workflow"); (ERROR, parse_error_message e)].
    cbn [snd sent log logged]. rewrite !app_nil_r, <- app_assoc.
    repeat split.
  - rewrite Hag in Hagent.
    rewrite (run_not_mapping doc params _ ag v Hagent Hload Hv).
    rewrite (run_not_mapping doc params w ag v Hag Hload Hv).
    exists [], [(INFO, "Processing workflow")].
    cbn [snd sent log logged]. rewrite !app_nil_r, <- app_assoc.
    repeat split.
  - rewrite Hag in Hagent.
    rewrite (run_params_failure doc params _ ag d e Hagent Hload Hps).
    rewrite (run_params_failure doc params w ag d e Hag Hload Hps).
    exists [], [(INFO, "Processing workflow"); executing_record d].
    cbn [snd sent log logged]. rewrite !app_nil_r, <- app_assoc.
    repeat split.
  - rewrite Hag in Hagent.
    rewrite (run_backend doc params _ ag d ps Hagent Hload Hps).
    rewrite (run_backend doc params w ag d ps Hag Hload Hps).
    exists [build_prompt (domain_of d) ps doc],
           [(INFO, "Processing workflow"); executing_record d].
    cbn [snd sent log logged prompted]. rewrite <- !app_assoc.
    repeat split.
Qed.

(** X9. With a backend bound and a text that loads to a mapping, the
    parameters, being trees (no list, tuple or dict holds itself), decide
    whether the backend is reached: when they are absent or an encodable
    dict (keys that are str, int, float, bool or None; values built from
    None, bool, int, float, str, lists, tuples and dicts), one prompt is
    sent; when some value is an object of another class, or some key is of
    another type, the call raises a TypeError after logging the scenario
    and before any prompt is sent. *)
Theorem params_decide_backend_call doc params (w : World BackendState) a d :
  agent (self w) = Some a ->
  yaml_safe_load doc = Return (PyDict d) ->
  (params_encodable params = true ->
   exists prompt,
     sent (snd (process doc params w)) = (sent w ++ [prompt])%list)
  /\ (params_encodable params = false ->
      (exists msg, fst (process doc params w) = Raise (PyExc "TypeError" msg))
      /\ sent (snd (process doc params w)) = sent w
      /\ backend (snd (process doc params w)) = backend w
      /\ log (snd (process doc params w))
         = (log w ++ [ (INFO, "Processing workflow");
                       (INFO, "Executing scenario: "
                                ++ py_str (dict_get d "scenario_name"
                                             (PyStr "Unnamed Scenario"))
                                ++ " in domain: "
                                ++ py_str (dict_get d "domain"
                                             (PyStr "general")))%string ])%list).
Proof.
  intros Ha Hload. split; intros Henc.
  - apply render_returns in Henc as (ps & Hps).
    rewrite (run_backend doc params w a d ps Ha Hload Hps).
    eexists. reflexivity.
  - destruct (render_params_section params) as [ps | e] eqn:Hps.
    + assert (params_encodable params = true)
        by (apply render_returns; now exists ps).
      congruence.
    + rewrite (run_params_failure doc params w a d e Ha Hload Hps).
      destruct (render_raises_TypeError params e Hps) as (msg & ->).
      repeat split. now exists msg.
Qed.

(** X10. The parameters section holds line breaks and printable ASCII
    characters only: control characters and characters above 126 in the
    keys and strings of the parameters reach the prompt escaped. *)
Theorem params_section_plain (params : option pydict) (ps : string) :
  render_params_section params = Return ps ->
  all_chars plain_char ps = true.
Proof.
  destruct params as [[| kv rest] |]; cbn [render_params_section]; intros H;
    try (assert (ps = "") by congruence; now subst).
  unfold Json.dumps in H.
  destruct (Json.iterencode 0 (PyDict (kv :: rest))) as [j | e] eqn:Hj;
    cbn [rbind] in H; [| discriminate].
  assert (ps = chr nl ++ "Parameters:" ++ chr nl ++ j) by congruence.
  subst ps.
  rewrite !PlainText.all_chars_append, (PlainText.iterencode_plain _ _ _ Hj).
  reflexivity.
Qed.

(** X11. A field that is present is never replaced by its default, also
    when its value is None: the scenario name reported is the value of the
    first scenario_name binding of the mapping, and the message shows its
    str() text. *)
Theorem present_field_wins doc params (w : World BackendState)
  a d v ps response s :
  agent (self w) = Some a ->
  yaml_safe_load doc = Return (PyDict d) ->
  first_binding d "scenario_name" v ->
  render_params_section params = Return ps ->
  run a (backend w) (build_prompt (domain_of d) ps doc)
  = (Return response, s) ->
  exists o,
    fst (process doc params w) = Return o
    /\ outcome_field o "scenario_name" = Some v
    /\ outcome_field o "message"
       = Some (PyStr ("Successfully executed workflow '" ++ py_str v
                        ++ "' using agent")).
Proof.
  intros Ha Hload Hfirst Hps Hrun.
  rewrite (run_backend doc params w a d ps Ha Hload Hps).
  cbv zeta. rewrite Hrun. cbn [fst].
  eexists. split; [reflexivity |].
  unfold scenario_name_of.
  rewrite (dict_get_first_binding d _ v _ Hfirst).
  split; reflexivity.
Qed.

(** X12. Looking a key up finds it exactly when the mapping has a first
    binding for it; then [get] returns that binding's value and not the
    default, and without one it returns the default. *)
Theorem lookup_first_binding (d : pydict) (k : string) (default : pyval) :
  (dict_has d k = true <->
   exists v, first_binding d k v /\ dict_get d k default = v)
  /\ (dict_has d k = false -> dict_get d k default = default).
Proof.
  split; [| apply dict_get_lacks].
  split.
  - intros H. apply dict_has_first_binding in H as (v & Hv).
    exists v. split; [assumption | now apply dict_get_first_binding].
  - intros (v & Hv & _). apply dict_has_first_binding. now exists v.
Qed.

(** X13. The document can be read back from the prompt: for one domain and
    one parameters section, two prompts are equal only when the documents
    are equal. *)
Theorem prompt_determines_document (domain : pyval) (ps doc1 doc2 : string) :
  build_prompt domain ps doc1 = build_prompt domain ps doc2 ->
  doc1 = doc2.
Proof.
  rewrite !build_prompt_sections. unfold fenced_document. intros H.
  apply append_inv_head in H. apply append_inv_head in H.
  rewrite !StringFacts.append_assoc in H.
  apply append_inv_head in H.
  rewrite <- !(StringFacts.append_assoc _ fence_close) in H.
  apply append_inv_tail in H. apply append_inv_tail in H. exact H.
Qed.


End Runs.

(** ** Two loaders compared *)

Section Loaders.

Variable BackendState : Type.
Variables yaml_safe_load other_load : string -> Result pyval.

(** X6. Of the loaded mapping only scenario_name and domain are used: two
    loaders that give mappings with the same values for these two keys
    (whatever else the mappings hold, additional_disclaimers included) lead
    to the same result and the same world. *)
Theorem only_name_and_domain_used doc params
  (w : World BackendState) d1 d2 :
  yaml_safe_load doc = Return (PyDict d1) ->
  other_load doc = Return (PyDict d2) ->
  dict_get d1 "scenario_name" (PyStr "Unnamed Scenario")
  = dict_get d2 "scenario_name" (PyStr "Unnamed Scenario") ->
  dict_get d1 "domain" (PyStr "general")
  = dict_get d2 "domain" (PyStr "general") ->
  process_workflow yaml_safe_load doc params w = process_workflow other_load doc params w.
Proof.
  intros H1 H2 Hname Hdomain.
  destruct (agent (self w)) as [a |] eqn:Ha.
  - destruct (render_params_section params) as [ps | e] eqn:Hps.
    + rewrite (run_backend BackendState yaml_safe_load doc params w a d1 ps
                 Ha H1 Hps),
              (run_backend BackendState other_load doc params w a d2 ps
                 Ha H2 Hps).
      unfold executing_record, scenario_name_of, domain_of.
      rewrite Hname, Hdomain. reflexivity.
    + rewrite (run_params_failure BackendState yaml_safe_load doc params w
                 a d1 e Ha H1 Hps),
              (run_params_failure BackendState other_load doc params w
                 a d2 e Ha H2 Hps).
      unfold executing_record, scenario_name_of, domain_of.
      rewrite Hname, Hdomain. reflexivity.
  - rewrite (run_unbound BackendState yaml_safe_load doc params w Ha),
            (run_unbound BackendState other_load doc params w Ha).
    reflexivity.
Qed.

(** X7. The scenario name never enters the prompt: two loaders that give
    mappings with the same domain make the call send the same prompts,
    whatever the scenario names are. *)
Theorem prompt_ignores_scenario_name doc params
  (w : World BackendState) d1 d2 :
  yaml_safe_load doc = Return (PyDict d1) ->
  other_load doc = Return (PyDict d2) ->
  dict_get d1 "domain" (PyStr "general")
  = dict_get d2 "domain" (PyStr "general") ->
  sent (snd (process_workflow yaml_safe_load doc params w))
  = sent (snd (process_workflow other_load doc params w)).
Proof.
  intros H1 H2 Hdomain.
  destruct (agent (self w)) as [a |] eqn:Ha.
  - destruct (render_params_section params) as [ps | e] eqn:Hps.
    + rewrite (run_backend BackendState yaml_safe_load doc params w a d1 ps
                 Ha H1 Hps),
              (run_backend BackendState other_load doc params w a d2 ps
                 Ha H2 Hps).
      unfold domain_of. rewrite Hdomain. reflexivity.
    + rewrite (run_params_failure BackendState yaml_safe_load doc params w
                 a d1 e Ha H1 Hps),
              (run_params_failure BackendState other_load doc params w
                 a d2 e Ha H2 Hps).
      reflexivity.
  - rewrite (run_unbound BackendState yaml_safe_load doc params w Ha),
            (run_unbound BackendState other_load doc params w Ha).
    reflexivity.
Qed.

End Loaders.

(** ** The properties on the sample documents *)

Import Samples.

(** C2 on the Refund document with no backend bound. *)
Lemma unbound_returns_error_witness :
  agent (self (world_of None)) = None
  /\ process_workflow sample_safe_load doc_refund params_amount (world_of None)
     = (Return [ (PyStr "status", PyStr "error");
                 (PyStr "message",
                  PyStr "No agent set for workflow processing") ],
        world_of None).
Proof.
  split; [reflexivity |].
  apply (unbound_returns_error nat sample_safe_load). reflexivity.
Defined.

(** C3 on a document with an unclosed bracket. *)
Lemma parse_failure_wrapped_witness :
  agent (self (bound echo_done)) = Some echo_done
  /\ sample_safe_load doc_unclosed
     = Raise (PyExc "yaml.parser.ParserError" unclosed_diagnostic)
  /\ fst (process_workflow sample_safe_load doc_unclosed None (bound echo_done))
     = Return [ (PyStr "status", PyStr "error");
                (PyStr "message",
                 PyStr ("Error parsing workflow YAML: "
                          ++ unclosed_diagnostic)) ]
  /\ sent (snd (process_workflow sample_safe_load doc_unclosed None
                  (bound echo_done))) = [].
Proof.
  split; [reflexivity |]. split; [reflexivity |].
  destruct (parse_failure_wrapped nat sample_safe_load doc_unclosed None
              (bound echo_done) echo_done eq_refl) as [Hwrap _].
  destruct (Hwrap _ eq_refl) as (Hreturn & _ & Hsent).
  split; [exact Hreturn | exact Hsent].
Defined.

(** C9 on the empty document, which loads to None. *)
Lemma non_mapping_raises_witness :
  agent (self (bound echo_done)) = Some echo_done
  /\ sample_safe_load doc_empty = Return PyNone
  /\ (forall d, PyNone <> PyDict d)
  /\ fst (process_workflow sample_safe_load doc_empty None (bound echo_done))
     = Raise (PyExc "AttributeError"
                "'NoneType' object has no attribute 'get'")
  /\ sent (snd (process_workflow sample_safe_load doc_empty None
                  (bound echo_done))) = [].
Proof.
  assert (Hnot : forall d, PyNone <> PyDict d) by discriminate.
  split; [reflexivity |]. split; [reflexivity |]. split; [exact Hnot |].
  destruct (non_mapping_raises nat sample_safe_load doc_empty None
              (bound echo_done) echo_done PyNone eq_refl eq_refl Hnot)
    as (Hraise & Hsent & _).
  split; [exact Hraise | exact Hsent].
Defined.

(** C7 with a backend whose run raises RuntimeError. *)
Lemma backend_failure_propagates_witness :
  agent (self (bound failing_agent)) = Some failing_agent
  /\ fst (process_workflow sample_safe_load doc_refund params_amount
            (bound failing_agent))
     = Raise (PyExc "RuntimeError" "backend unavailable").
Proof.
  split; [reflexivity |].
  eapply (backend_failure_propagates nat sample_safe_load doc_refund
            params_amount (bound failing_agent) failing_agent);
    reflexivity.
Defined.

(** The end-to-end example: scenario Refund in domain finance, the
    parameter amount = 50 and a backend that answers done. *)
Lemma process_success_witness :
  agent (self (bound echo_done)) = Some echo_done
  /\ sample_safe_load doc_refund
     = Return (PyDict [ (PyStr "scenario_name", PyStr "Refund");
                        (PyStr "domain", PyStr "finance") ])
  /\ fst (process_workflow sample_safe_load doc_refund params_amount
            (bound echo_done))
     = Return [ (PyStr "status", PyStr "success");
                (PyStr "scenario_name", PyStr "Refund");
                (PyStr "domain", PyStr "finance");
                (PyStr "result", PyStr "done");
                (PyStr "message",
                 PyStr "Successfully executed workflow 'Refund' using agent") ].
Proof.
  split; [reflexivity |]. split; [reflexivity |].
  eapply (process_success nat sample_safe_load doc_refund params_amount
            (bound echo_done) echo_done
            [ (PyStr "scenario_name", PyStr "Refund");
              (PyStr "domain", PyStr "finance") ]
            _ {| result := {| text := PyStr "done" |} |});
    reflexivity.
Defined.

(** C1 as stated fails: with a mapping and a backend bound, the call
    raises instead of returning a dict when the awaited backend call raises,
    and when a parameter value is not JSON-encodable. *)
Lemma success_not_for_every_call :
  agent (self (bound failing_agent)) = Some failing_agent
  /\ agent (self (bound echo_done)) = Some echo_done
  /\ sample_safe_load doc_refund
     = Return (PyDict [ (PyStr "scenario_name", PyStr "Refund");
                        (PyStr "domain", PyStr "finance") ])
  /\ fst (process_workflow sample_safe_load doc_refund None
            (bound failing_agent))
     = Raise (PyExc "RuntimeError" "backend unavailable")
  /\ (forall o, fst (process_workflow sample_safe_load doc_refund None
                       (bound failing_agent)) <> Return o)
  /\ fst (process_workflow sample_safe_load doc_refund params_with_set
            (bound echo_done))
     = Raise (PyExc "TypeError" "Object of type set is not JSON serializable")
  /\ (forall o, fst (process_workflow sample_safe_load doc_refund
                       params_with_set (bound echo_done)) <> Return o).
Proof.
  repeat split; discriminate.
Qed.

(** C4 as stated fails: a non-empty parameters dict with a set among its
    values makes json.dumps raise TypeError; the call raises it and no
    prompt reaches the backend, so no prompt shows the keys. *)
Lemma params_with_set_not_rendered :
  params_with_set
  = Some [ (PyStr "amount", PyInt 50);
           (PyStr "tags", PyOther "set" "{'a'}" "{'a'}") ]
  /\ fst (process_workflow sample_safe_load doc_refund params_with_set
            (bound echo_done))
     = Raise (PyExc "TypeError" "Object of type set is not JSON serializable")
  /\ sent (snd (process_workflow sample_safe_load doc_refund params_with_set
                  (bound echo_done))) = []
  /\ ~ (exists prompt,
          In prompt (sent (snd (process_workflow sample_safe_load doc_refund
                                  params_with_set (bound echo_done))))).
Proof.
  repeat split. intros (prompt & Hin). exact Hin.
Qed.

(** C6 on a mapping that has none of the three fields. *)
Lemma metadata_defaults_witness :
  lacks [ (PyStr "steps", PyList []) ] "scenario_name"
  /\ lacks [ (PyStr "steps", PyList []) ] "domain"
  /\ lacks [ (PyStr "steps", PyList []) ] "additional_disclaimers"
  /\ extract_metadata (PyDict [ (PyStr "steps", PyList []) ])
     = Return (PyStr "Unnamed Scenario", PyStr "general", PyList [])
  /\ exists o,
       fst (process_workflow sample_safe_load doc_steps_only None
              (bound echo_done)) = Return o
       /\ outcome_field o "scenario_name" = Some (PyStr "Unnamed Scenario")
       /\ outcome_field o "domain" = Some (PyStr "general").
Proof.
  assert (H1 : lacks [ (PyStr "steps", PyList []) ] "scenario_name")
    by reflexivity.
  assert (H2 : lacks [ (PyStr "steps", PyList []) ] "domain")
    by reflexivity.
  assert (H3 : lacks [ (PyStr "steps", PyList []) ] "additional_disclaimers")
    by reflexivity.
  destruct (metadata_defaults nat sample_safe_load
              [ (PyStr "steps", PyList []) ])
    as [(n & dm & ds & Hmeta & Hn & Hdm & Hds) Hcall].
  split; [exact H1 |]. split; [exact H2 |]. split; [exact H3 |]. split.
  - rewrite Hmeta, (Hn H1), (Hdm H2), (Hds H3). reflexivity.
  - destruct (Hcall doc_steps_only None (bound echo_done) echo_done ""
                {| result := {| text := PyStr "done" |} |} 0
                eq_refl eq_refl eq_refl eq_refl)
      as (o & Ho & Hname & Hdomain).
    exists o. split; [exact Ho |].
    split; [exact (proj1 (Hname H1)) | exact (proj1 (Hdomain H2))].
Defined.

(** C5 on the Refund document with the parameter amount = 50. *)
Lemma prompt_layout_witness :
  exists ps,
    render_params_section params_amount = Return ps
    /\ sent (snd (process_workflow sample_safe_load doc_refund params_amount
                    (bound echo_done)))
       = (sent (bound echo_done)
            ++ [build_prompt (PyStr "finance") ps doc_refund])%list
    /\ build_prompt (PyStr "finance") ps doc_refund
       = domain_statement (PyStr "finance") ++ ps
           ++ (fence_open ++ doc_refund ++ fence_close)
           ++ step_directives ++ placeholder_directive
    /\ Contains doc_refund (build_prompt (PyStr "finance") ps doc_refund).
Proof.
  eexists. split; [reflexivity |].
  assert (Hsent :
    sent (snd (process_workflow sample_safe_load doc_refund params_amount
                 (bound echo_done)))
    = (sent (bound echo_done)
         ++ [build_prompt (PyStr "finance")
               (chr nl ++ "Parameters:" ++ chr nl ++ "{" ++ chr nl
                  ++ "  " ++ Json.py_encode_basestring_ascii "amount"
                  ++ ": 50" ++ chr nl ++ "}")
               doc_refund])%list) by reflexivity.
  split; [exact Hsent |].
  destruct (prompt_layout nat sample_safe_load doc_refund params_amount
              (bound echo_done) _ Hsent)
    as (d & ps & Hload & Hps & Hlayout & Hdoc).
  split; [| exact Hdoc].
  assert (Hd : d = [ (PyStr "scenario_name", PyStr "Refund");
                     (PyStr "domain", PyStr "finance") ])
    by (cbv in Hload; congruence).
  assert (Hp : ps = (chr nl ++ "Parameters:" ++ chr nl ++ "{" ++ chr nl
                  ++ "  " ++ Json.py_encode_basestring_ascii "amount"
                  ++ ": 50" ++ chr nl ++ "}"))
    by (cbv in Hps; cbv; congruence).
  subst d ps. exact Hlayout.
Defined.

(** C4 on the Refund document: the key amount is shown on its own line. *)
Lemma params_in_prompt_witness :
  agent (self (bound echo_done)) = Some echo_done
  /\ exists prompt,
       sent (snd (process_workflow sample_safe_load doc_refund params_amount
                    (bound echo_done))) = [prompt]
       /\ Contains (chr nl ++ "  "
                      ++ Json.py_encode_basestring_ascii "amount" ++ ": ")
            prompt.
Proof.
  split; [reflexivity |].
  destruct (params_in_prompt nat sample_safe_load doc_refund params_amount
              (bound echo_done) echo_done
              [ (PyStr "scenario_name", PyStr "Refund");
                (PyStr "domain", PyStr "finance") ]
              eq_refl eq_refl) as [Hshown _].
  destruct (Hshown (PyStr "amount", PyInt 50) [] _ eq_refl eq_refl)
    as (prompt & Hsent & _ & Hkeys).
  exists prompt. split; [exact Hsent |].
  destruct (Hkeys (PyStr "amount") (PyInt 50) (or_introl eq_refl))
    as (ks & Hks & Hline).
  assert (ks = "amount") by (cbn in Hks; congruence). subst ks.
  exact Hline.
Defined.

(** The sample backend answers without looking at its state. *)
Lemma echo_done_deterministic : deterministic_agent echo_done.
Proof.
  intros s1 s2 prompt. reflexivity.
Qed.

(** C8: the Refund document processed twice in a row. *)
Lemma deterministic_backend_repeatable_witness :
  agent (self (bound echo_done)) = agent (self (bound echo_done))
  /\ (forall ag, agent (self (bound echo_done)) = Some ag ->
        deterministic_agent ag)
  /\ fst (process_workflow sample_safe_load doc_refund params_amount
            (snd (process_workflow sample_safe_load doc_refund params_amount
                    (bound echo_done))))
     = fst (process_workflow sample_safe_load doc_refund params_amount
              (bound echo_done)).
Proof.
  assert (Hdet : forall ag, agent (self (bound echo_done)) = Some ag ->
                   deterministic_agent ag).
  { intros ag Hag. cbn in Hag. injection Hag as <-.
    intros s1 s2 prompt. reflexivity. }
  split; [reflexivity |]. split; [exact Hdet |].
  apply (deterministic_backend_repeatable nat sample_safe_load doc_refund
           params_amount (bound echo_done) (bound echo_done) eq_refl Hdet).
Defined.

(** The other non-mappings of the sample table: a list and a scalar. *)
Example list_and_scalar_raise :
  fst (process_workflow sample_safe_load doc_list None (bound echo_done))
  = Raise (PyExc "AttributeError" "'list' object has no attribute 'get'")
  /\ fst (process_workflow sample_safe_load doc_scalar None (bound echo_done))
     = Raise (PyExc "AttributeError" "'int' object has no attribute 'get'").
Proof.
  split; reflexivity.
Qed.

(** Without the hypothesis of C8 the results may differ: a backend that
    counts its calls answers 0 and then 1. *)
Example counting_agent_not_repeatable :
  fst (process_workflow sample_safe_load doc_refund None
         (snd (process_workflow sample_safe_load doc_refund None
                 (bound counting_agent))))
  <> fst (process_workflow sample_safe_load doc_refund None
            (bound counting_agent)).
Proof.
  discriminate.
Qed.

(** ** The further properties on the sample documents *)

Import MoreSamples.

(** X2 on the document with an unclosed bracket. *)
Lemma outcome_shape_witness :
  fst (process_workflow sample_safe_load doc_unclosed None (bound echo_done))
  = Return [ (PyStr "status", PyStr "error");
             (PyStr "message",
              PyStr ("Error parsing workflow YAML: " ++ unclosed_diagnostic)) ]
  /\ ((exists m, [ (PyStr "status", PyStr "error");
                   (PyStr "message",
                    PyStr ("Error parsing workflow YAML: "
                             ++ unclosed_diagnostic)) ]
                 = [ (PyStr "status", PyStr "error");
                     (PyStr "message", PyStr m) ])
      \/ (exists name dom res m,
            [ (PyStr "status", PyStr "error");
              (PyStr "message",
               PyStr ("Error parsing workflow YAML: "
                        ++ unclosed_diagnostic)) ]
            = [ (PyStr "status", PyStr "success");
                (PyStr "scenario_name", name);
                (PyStr "domain", dom);
                (PyStr "result", res);
                (PyStr "message", PyStr m) ])).
Proof.
  split; [reflexivity |].
  apply (outcome_shape nat sample_safe_load doc_unclosed None
           (bound echo_done)).
  reflexivity.
Defined.

(** X3 on the list document: the AttributeError case. *)
Lemma raised_exceptions_witness :
  fst (process_workflow sample_safe_load doc_list None (bound echo_done))
  = Raise (PyExc "AttributeError" "'list' object has no attribute 'get'")
  /\ exists a, agent (self (bound echo_done)) = Some a.
Proof.
  split; [reflexivity |].
  destruct (raised_exceptions nat sample_safe_load doc_list None
              (bound echo_done) _ eq_refl) as (a & Ha & _).
  now exists a.
Defined.

(** X6 on the Refund document, loaded with and without further fields. *)
Lemma only_name_and_domain_used_witness :
  sample_safe_load doc_refund
  = Return (PyDict [ (PyStr "scenario_name", PyStr "Refund");
                     (PyStr "domain", PyStr "finance") ])
  /\ sample_safe_load_wide doc_refund
     = Return (PyDict [ (PyStr "additional_disclaimers",
                         PyList [PyStr "none"]);
                        (PyStr "scenario_name", PyStr "Refund");
                        (PyStr "steps", PyList []);
                        (PyStr "domain", PyStr "finance") ])
  /\ process_workflow sample_safe_load doc_refund params_amount
       (bound echo_done)
     = process_workflow sample_safe_load_wide doc_refund params_amount
         (bound echo_done).
Proof.
  split; [reflexivity |]. split; [reflexivity |].
  eapply (only_name_and_domain_used nat sample_safe_load
            sample_safe_load_wide doc_refund params_amount (bound echo_done));
    reflexivity.
Defined.

(** X7 on the Refund document against a loader that keeps the domain and
    names the scenario Chargeback. *)
Lemma prompt_ignores_scenario_name_witness :
  sent (snd (process_workflow sample_safe_load doc_refund params_amount
               (bound echo_done)))
  = sent (snd (process_workflow
                 (fun _ => Return (PyDict [ (PyStr "domain", PyStr "finance");
                                            (PyStr "scenario_name",
                                             PyStr "Chargeback") ]))
                 doc_refund params_amount (bound echo_done))).
Proof.
  eapply (prompt_ignores_scenario_name nat sample_safe_load _ doc_refund
            params_amount (bound echo_done));
    reflexivity.
Defined.

(** X9 on the Refund document: a set among the values stops the call
    before the backend; an int value, and a float key with a tuple value,
    let it through. *)
Lemma params_decide_backend_call_witness :
  agent (self (bound echo_done)) = Some echo_done
  /\ params_encodable params_amount = true
  /\ params_encodable params_float_tuple = true
  /\ params_encodable params_with_set = false
  /\ (exists prompt,
        sent (snd (process_workflow sample_safe_load doc_refund params_amount
                     (bound echo_done))) = [prompt])
  /\ (exists prompt,
        sent (snd (process_workflow sample_safe_load doc_refund
                     params_float_tuple (bound echo_done))) = [prompt])
  /\ sent (snd (process_workflow sample_safe_load doc_refund params_with_set
                  (bound echo_done))) = [].
Proof.
  split; [reflexivity |]. split; [reflexivity |]. split; [reflexivity |].
  split; [reflexivity |]. split; [| split].
  - destruct (params_decide_backend_call nat sample_safe_load doc_refund
                params_amount (bound echo_done) echo_done _ eq_refl eq_refl)
      as [Hsend _].
    exact (Hsend eq_refl).
  - destruct (params_decide_backend_call nat sample_safe_load doc_refund
                params_float_tuple (bound echo_done) echo_done _
                eq_refl eq_refl)
      as [Hsend _].
    exact (Hsend eq_refl).
  - destruct (params_decide_backend_call nat sample_safe_load doc_refund
                params_with_set (bound echo_done) echo_done _ eq_refl eq_refl)
      as [_ Hstop].
    exact (proj1 (proj2 (Hstop eq_refl))).
Defined.

(** X10 on parameters with a tab and a character above 127. *)
Lemma params_section_plain_witness :
  exists ps,
    render_params_section params_odd_text = Return ps
    /\ all_chars plain_char ps = true
    /\ Contains "\u00e9" ps
    /\ Contains "\t" ps.
Proof.
  eexists. split; [reflexivity |]. split.
  - exact (params_section_plain params_odd_text _ eq_refl).
  - split; apply StringFacts.containsb_sound; vm_compute; reflexivity.
Defined.

(** X11 on a document whose scenario_name is null. *)
Lemma present_field_wins_witness :
  agent (self (bound echo_done)) = Some echo_done
  /\ sample_safe_load_more doc_null_name
     = Return (PyDict [ (PyStr "scenario_name", PyNone) ])
  /\ first_binding [ (PyStr "scenario_name", PyNone) ] "scenario_name" PyNone
  /\ exists o,
       fst (process_workflow sample_safe_load_more doc_null_name None
              (bound echo_done)) = Return o
       /\ outcome_field o "scenario_name" = Some PyNone
       /\ outcome_field o "message"
          = Some (PyStr "Successfully executed workflow 'None' using agent").
Proof.
  assert (Hfirst : first_binding [ (PyStr "scenario_name", PyNone) ]
                     "scenario_name" PyNone).
  { exists [], []. split; reflexivity. }
  split; [reflexivity |]. split; [reflexivity |]. split; [exact Hfirst |].
  exact (present_field_wins nat sample_safe_load_more doc_null_name None
           (bound echo_done) echo_done _ PyNone ""
           {| result := {| text := PyStr "done" |} |} 0
           eq_refl eq_refl Hfirst eq_refl eq_refl).
Defined.

(** X12 on the Refund mapping: domain is found, steps is not. *)
Lemma lookup_first_binding_witness :
  dict_has [ (PyStr "scenario_name", PyStr "Refund");
             (PyStr "domain", PyStr "finance") ] "domain" = true
  /\ dict_has [ (PyStr "scenario_name", PyStr "Refund");
                (PyStr "domain", PyStr "finance") ] "steps" = false
  /\ (exists v,
        first_binding [ (PyStr "scenario_name", PyStr "Refund");
                        (PyStr "domain", PyStr "finance") ] "domain" v
        /\ dict_get [ (PyStr "scenario_name", PyStr "Refund");
                      (PyStr "domain", PyStr "finance") ] "domain"
             (PyStr "general") = v)
  /\ dict_get [ (PyStr "scenario_name", PyStr "Refund");
                (PyStr "domain", PyStr "finance") ] "steps" (PyList [])
     = PyList [].
Proof.
  split; [reflexivity |]. split; [reflexivity |]. split.
  - apply (proj1 (lookup_first_binding _ "domain" (PyStr "general"))).
    reflexivity.
  - apply (proj2 (lookup_first_binding _ "steps" (PyList []))).
    reflexivity.
Defined.

(** X13 on two prompts for the Refund document. *)
Lemma prompt_determines_document_witness :
  build_prompt (PyStr "finance") "" doc_refund
  = build_prompt (PyStr "finance") ""
      ("scenario_name: Refund" ++ chr nl ++ "domain: finance")
  /\ doc_refund = "scenario_name: Refund" ++ chr nl ++ "domain: finance".
Proof.
  split; [reflexivity |].
  apply (prompt_determines_document (PyStr "finance") "").
  reflexivity.
Defined.

(** A float key and a tuple value are rendered as json.dumps renders them:
    the key as a JSON string on its own line, the tuple as an array. *)
Example float_key_and_tuple_rendered :
  render_params_section params_float_tuple
  = Return (chr nl ++ "Parameters:" ++ chr nl
              ++ "{" ++ chr nl
              ++ "  " ++ chr dquote ++ "1.5" ++ chr dquote ++ ": [" ++ chr nl
              ++ "    1," ++ chr nl
              ++ "    2.5" ++ chr nl
              ++ "  ]" ++ chr nl
              ++ "}")
  /\ exists prompt,
       sent (snd (process_workflow sample_safe_load doc_refund
                    params_float_tuple (bound echo_done))) = [prompt]
       /\ containsb (chr nl ++ "  " ++ chr dquote ++ "1.5" ++ chr dquote
                       ++ ": ") prompt = true.
Proof.
  split; [reflexivity |].
  eexists. split; [reflexivity |]. vm_compute. reflexivity.
Qed.
